(** * The client data layer of the course marketplace: state/api.ts

    A shallow embedding of [src/client/src/state/api.ts]: the response
    middleware [customBaseQuery], the base-URL fallback [API_BASE_URL], the
    endpoint registry of [createApi] and the optimistic update of
    [updateUserCourseProgress].

    The values the middleware inspects are untyped at run time ([unknown] in
    the TypeScript source: whatever JSON the server sent), so they are
    modelled as JavaScript values with the language's own truthiness,
    property access and string conversion. *)

From Stdlib Require Import Ascii DecimalString.
From stdpp Require Import gmap strings list fin_maps.

Set Warnings "-register-all".

(** ** JavaScript values *)

Module JS.

(** Numbers are restricted to the integers (HTTP status codes, counters);
    strings hold code units up to U+00FF; objects are finite maps from
    property names to values, as [JSON.parse] builds them. *)
Inductive value : Type :=
| JUndefined
| JNull
| JBool (b : bool)
| JNum (z : Z)
| JStr (s : string)
| JArr (items : list value)
| JObj (fields : gmap string value).

Abbreviation obj := (gmap string value).

(** ToBoolean. *)
Definition truthy (v : value) : bool :=
  match v with
  | JUndefined | JNull => false
  | JBool b => b
  | JNum z => negb (z =? 0)%Z
  | JStr s => negb (String.eqb s "")
  | JArr _ | JObj _ => true
  end.

(** [v === undefined || v === null]. *)
Definition nullish (v : value) : bool :=
  match v with
  | JUndefined | JNull => true
  | _ => false
  end.

(** [a || b] and [a ?? b], both operands being at hand. *)
Definition or_else (a b : value) : value := if truthy a then a else b.
Definition coalesce (a b : value) : value := if nullish a then b else a.

(** [o.k] for the property names the program reads ([data], [message],
    [status], [error], [method], [sections]): own properties of an object;
    arrays and primitives have none of them.  Reading a property of
    [undefined] or [null] throws in JavaScript; every read in the program
    is guarded against that, and the guards are modelled where they stand. *)
Definition getProp (v : value) (k : string) : value :=
  match v with
  | JObj fields => default JUndefined (fields !! k)
  | _ => JUndefined
  end.

(** [o.k] on a value known to be an object. *)
Definition field (o : obj) (k : string) : value := default JUndefined (o !! k).

(** [v?.k]. *)
Definition optProp (v : value) (k : string) : value :=
  if nullish v then JUndefined else getProp v k.

(** [v !== s] for a string literal [s]: strict inequality never coerces. *)
Definition strictNeqStr (v : value) (s : string) : bool :=
  match v with
  | JStr t => negb (String.eqb t s)
  | _ => true
  end.

(** [k in o] on an object. *)
Definition hasProp (o : obj) (k : string) : bool := bool_decide (is_Some (o !! k)).

Fixpoint join (sep : string) (l : list string) : string :=
  match l with
  | [] => ""
  | [s] => s
  | s :: rest => s +:+ sep +:+ join sep rest
  end.

Section Printing.

(** Number::toString, the digits JavaScript shows for a number.  The program
    reaches it only through ToString and does not depend on what it gives;
    nothing is assumed about it here. *)
Variable numberToString : Z -> string.

(** ToString, as template literals apply it, which is also what calling
    [toString()] on a value other than [null] and [undefined] gives; [None]
    stands for the TypeError it throws.  An object prints through
    [Object.prototype.toString] unless it has a [toString] property of its
    own: that of a parsed object is never a function, and the conversion
    throws.  An array prints its elements joined by commas, [null] and
    [undefined] as nothing. *)
Fixpoint toString (v : value) : option string :=
  match v with
  | JUndefined => Some "undefined"
  | JNull => Some "null"
  | JBool true => Some "true"
  | JBool false => Some "false"
  | JNum z => Some (numberToString z)
  | JStr s => Some s
  | JArr items =>
      join "," <$>
        (fix elems (l : list value) : option (list string) :=
           match l with
           | [] => Some []
           | x :: rest =>
               s ← (if nullish x then Some "" else toString x);
               ss ← elems rest;
               Some (s :: ss)
           end) items
  | JObj fields => if hasProp fields "toString" then None else Some "[object Object]"
  end.

End Printing.

(** The decimal numeral of an integer, which is how JavaScript prints the
    integers of magnitude below 10^21; the examples run with it, on such
    numbers only. *)
Definition string_of_Z (z : Z) : string := NilZero.string_of_int (Z.to_int z).

End JS.
Import JS.

(** ** Request descriptors and notifications *)

(** [FetchArgs] of the query library, with the fields the registry fills in;
    a parameter of [params] is a string or [undefined] ([None]). *)
Record FetchArgs : Type := mkFetchArgs {
  url : string;
  method : option string;
  body : option value;
  params : option (list (string * option string))
}.

(** The base query's argument type, [string | FetchArgs]. *)
Inductive Args : Type :=
| ArgUrl (u : string)
| ArgFetch (a : FetchArgs).

(** [(args as FetchArgs).method]: a string argument has no such property. *)
Definition argsMethod (args : Args) : value :=
  match args with
  | ArgUrl _ => JUndefined
  | ArgFetch a => from_option JStr JUndefined (method a)
  end.

(** What [toast.error] and [toast.success] are called with. *)
Inductive Toast : Type :=
| ToastError (msg : string)
| ToastSuccess (msg : value).

(** Computations that emit notifications and may throw: what is returned
    ([None] when a TypeError was thrown instead) together with the toasts
    raised up to then, oldest first. *)
Definition Toasting (A : Type) : Type := option A * list Toast.

#[export] Instance toasting_ret : MRet Toasting := fun A a => (Some a, []).

#[export] Instance toasting_bind : MBind Toasting := fun A B k m =>
  match m with
  | (Some a, t1) => let '(b, t2) := k a in (b, t1 ++ t2)
  | (None, t1) => (None, t1)
  end.

(** An evaluation that returns or throws, without notifying. *)
Definition evaluate {A} (completion : option A) : Toasting A := (completion, []).

Definition toast_error (msg : string) : Toasting unit := (Some tt, [ToastError msg]).
Definition toast_success (msg : value) : Toasting unit := (Some tt, [ToastSuccess msg]).

Definition returned {A} (m : Toasting A) : option A := fst m.
Definition toasts {A} (m : Toasting A) : list Toast := snd m.

(** ** The response middleware *)

Section Middleware.

Variable numberToString : Z -> string.

(** The transport adapter, [fetchBaseQuery(...)]: resolves to an object
    holding either [error] or [data], next to [meta]. *)
Variable rawBaseQuery : Args -> obj.

(** [status?.toString()] *)
Definition optToString (status : value) : Toasting value :=
  if nullish status then mret JUndefined
  else text ← evaluate (toString numberToString status); mret (JStr text).

Definition customBaseQuery (args : Args) : Toasting obj :=
  let result := rawBaseQuery args in
  (* Handle errors *)
  if hasProp result "error" && truthy (field result "error") then
    let error := field result "error" in
    let errorData := coalesce (getProp error "data") (JObj ∅) in
    errorMessage ←
      (if truthy (getProp errorData "message")
       then mret (getProp errorData "message")
       else
         status ← optToString (getProp error "status");
         mret (or_else status (JStr "An error occurred")));
    text ← evaluate (toString numberToString errorMessage);
    toast_error ("Error: " +:+ text) ;;
    mret result
  else
    (* Handle mutation success messages *)
    (if hasProp result "data"
        && truthy (argsMethod args)
        && strictNeqStr (argsMethod args) "GET"
     then
       let successData := field result "data" in
       if truthy (optProp successData "message")
       then toast_success (getProp successData "message")
       else mret tt
     else mret tt) ;;
    (* Normalize data wrapper *)
    if hasProp result "data"
       && truthy (field result "data")
       && truthy (getProp (field result "data") "data")
    then mret (<["data" := getProp (field result "data") "data"]> result)
    else mret result.

End Middleware.

(** ** The base URL *)

(** [window.location], as far as the program reads it. *)
Record Location : Type := mkLocation {
  protocol : string;
  hostname : string
}.

(** [env] is [process.env.NEXT_PUBLIC_API_BASE_URL] ([None] when undefined),
    [window] is the global of that name ([None] where [typeof window] is
    ["undefined"]). *)
Definition API_BASE_URL (env : option string) (window : option Location) : string :=
  match env with
  | Some configured => configured
  | None =>
      match window with
      | Some w => protocol w +:+ "//" +:+ hostname w +:+ ":8001"
      | None => "http://localhost:8001"
      end
  end.

(** ** The endpoint registry *)

(** A tag description: [{ type, id }], or a bare type name (no id). *)
Record Tag : Type := mkTag {
  tag_type : string;
  tag_id : option string
}.

#[export] Instance Tag_eq_dec : EqDecision Tag.
Proof. solve_decision. Defined.

Definition tagOf (type : string) : Tag := mkTag type None.

Inductive Endpoint : Type :=
| updateUser
| getCourses
| getCourse
| createCourse
| updateCourse
| deleteCourse
| getUploadVideoUrl
| getTransactions
| createStripePaymentIntent
| createTransaction
| getUserEnrolledCourses
| getUserCourseProgress
| updateUserCourseProgress.

(** The argument types of the endpoints that destructure their argument. *)

(** [{ userId, ...updatedUser }] *)
Record UserUpdate : Type := mkUserUpdate {
  uu_userId : string;
  uu_updatedUser : obj
}.

(** [{ courseId, formData }] *)
Record CourseUpdate : Type := mkCourseUpdate {
  cu_courseId : string;
  cu_formData : value
}.

(** [{ courseId, chapterId, sectionId, fileName, fileType }] *)
Record UploadRequest : Type := mkUploadRequest {
  up_courseId : string;
  up_chapterId : string;
  up_sectionId : string;
  up_fileName : string;
  up_fileType : string
}.

(** [{ userId, courseId }] *)
Record ProgressKey : Type := mkProgressKey {
  pk_userId : string;
  pk_courseId : string
}.

(** [{ userId, courseId, progressData }] with [progressData : { sections }] *)
Record ProgressUpdate : Type := mkProgressUpdate {
  pu_userId : string;
  pu_courseId : string;
  pu_progressData : obj
}.

(** The second type parameter of each [build.query] / [build.mutation]. *)
Definition ArgOf (e : Endpoint) : Type :=
  match e with
  | updateUser => UserUpdate
  | getCourses => option string          (* { category?: string } *)
  | getCourse => string
  | createCourse => obj                  (* { teacherId, teacherName } *)
  | updateCourse => CourseUpdate
  | deleteCourse => string
  | getUploadVideoUrl => UploadRequest
  | getTransactions => string
  | createStripePaymentIntent => Z       (* { amount: number } *)
  | createTransaction => obj             (* Partial<Transaction> *)
  | getUserEnrolledCourses => string
  | getUserCourseProgress => ProgressKey
  | updateUserCourseProgress => ProgressUpdate
  end.

Definition fetchArgs (u : string) (m : string) (b : option value) : Args :=
  ArgFetch (mkFetchArgs u (Some m) b None).

(** The [query] callback of each endpoint. *)
Definition query (e : Endpoint) : ArgOf e -> Args :=
  match e with
  | updateUser => fun a =>
      fetchArgs ("users/clerk/" +:+ uu_userId a) "PUT" (Some (JObj (uu_updatedUser a)))
  | getCourses => fun category =>
      ArgFetch (mkFetchArgs "courses" None None
                  (Some [("category", category)]))
  | getCourse => fun id => ArgUrl ("courses/" +:+ id)
  | createCourse => fun body => fetchArgs "courses" "POST" (Some (JObj body))
  | updateCourse => fun a =>
      fetchArgs ("courses/" +:+ cu_courseId a) "PUT" (Some (cu_formData a))
  | deleteCourse => fun courseId => fetchArgs ("courses/" +:+ courseId) "DELETE" None
  | getUploadVideoUrl => fun a =>
      fetchArgs
        ("courses/" +:+ up_courseId a +:+ "/sections/" +:+ up_sectionId a
           +:+ "/chapters/" +:+ up_chapterId a +:+ "/get-upload-url")
        "POST"
        (Some (JObj {[ "fileName" := JStr (up_fileName a);
                       "fileType" := JStr (up_fileType a) ]}))
  | getTransactions => fun userId => ArgUrl ("transactions?userId=" +:+ userId)
  | createStripePaymentIntent => fun amount =>
      fetchArgs "/transactions/stripe/payment-intent" "POST"
        (Some (JObj {[ "amount" := JNum amount ]}))
  | createTransaction => fun transaction =>
      fetchArgs "transactions" "POST" (Some (JObj transaction))
  | getUserEnrolledCourses => fun userId =>
      ArgUrl ("users/course-progress/" +:+ userId +:+ "/enrolled-courses")
  | getUserCourseProgress => fun a =>
      ArgUrl ("users/course-progress/" +:+ pk_userId a +:+ "/courses/" +:+ pk_courseId a)
  | updateUserCourseProgress => fun a =>
      fetchArgs
        ("users/course-progress/" +:+ pu_userId a +:+ "/courses/" +:+ pu_courseId a)
        "PUT" (Some (JObj (pu_progressData a)))
  end.

(** [providesTags]; an endpoint without the property provides nothing. *)
Definition providesTags (e : Endpoint) : ArgOf e -> list Tag :=
  match e with
  | getCourses => fun _ => [tagOf "Courses"]
  | getCourse => fun id => [mkTag "Courses" (Some id)]
  | getUserEnrolledCourses => fun _ => [tagOf "Courses"; tagOf "UserCourseProgress"]
  | getUserCourseProgress => fun _ => [tagOf "UserCourseProgress"]
  | _ => fun _ => []
  end.

(** [invalidatesTags]; an endpoint without the property invalidates nothing. *)
Definition invalidatesTags (e : Endpoint) : ArgOf e -> list Tag :=
  match e with
  | updateUser => fun _ => [tagOf "Users"]
  | createCourse => fun _ => [tagOf "Courses"]
  | updateCourse => fun a => [mkTag "Courses" (Some (cu_courseId a))]
  | deleteCourse => fun _ => [tagOf "Courses"]
  | updateUserCourseProgress => fun _ => [tagOf "UserCourseProgress"]
  | _ => fun _ => []
  end.

(** The endpoints in the order of the object literal. *)
Definition endpoints : list Endpoint :=
  [ updateUser; getCourses; getCourse; createCourse; updateCourse; deleteCourse;
    getUploadVideoUrl; getTransactions; createStripePaymentIntent;
    createTransaction; getUserEnrolledCourses; getUserCourseProgress;
    updateUserCourseProgress ].

(** [tagTypes] *)
Definition tagTypes : list string := ["Courses"; "Users"; "UserCourseProgress"].


(** ** The transport's view of a descriptor *)

Section Transport.

(** The percent-encoding that [URLSearchParams] applies to a parameter
    value. *)
Variable formEncode : string -> string.

(** Modelled from the spec: the transport adapter (the query library's
    [fetchBaseQuery]) is not among the sources.  Section 6 has the query
    params sent "as shown in the table" of section 4.3, that is as
    [path?name=value]; parameters that are [undefined] are left out. *)
Definition serializeParams (ps : list (string * option string)) : string :=
  join "&" (omap (fun kv => v ← kv.2; Some (kv.1 +:+ "=" +:+ formEncode v)) ps).

(** Modelled from the spec: the path and query string the transport adapter
    requests for a descriptor, relative to the base URL (section 4.1; the
    adapter itself is library code). *)
Definition requestTarget (args : Args) : string :=
  match args with
  | ArgUrl u => u
  | ArgFetch a =>
      match params a with
      | None => url a
      | Some ps => url a +:+ "?" +:+ serializeParams ps
      end
  end.

(** Modelled from the spec: the method of the request the transport adapter
    sends; a descriptor that names none is a read (section 4.2, step 3). *)
Definition requestMethod (args : Args) : string :=
  match args with
  | ArgUrl _ => "GET"
  | ArgFetch a => default "GET" (method a)
  end.

End Transport.


(** ** The operations catalog of the specification *)

(** A path pattern: literal text and placeholders in braces. *)
Inductive Segment : Type :=
| Lit (text : string)
| Hole (name : string).

(** A tag of the catalog: [Type] or [Type:{placeholder}]. *)
Record TagPattern : Type := mkTagPattern {
  tp_type : string;
  tp_id : option string
}.

Record CatalogRow : Type := mkCatalogRow {
  row_method : string;
  row_path : list Segment;
  row_provides : list TagPattern;
  row_invalidates : list TagPattern
}.

Definition plainTag (type : string) : TagPattern := mkTagPattern type None.

(** The table of section 4.3, row by row.  A query string [?name=] stands
    for [?name=] followed by the value of that parameter. *)
Definition catalog (e : Endpoint) : CatalogRow :=
  match e with
  | updateUser =>                 (* update user profile *)
      mkCatalogRow "PUT" [Lit "users/clerk/"; Hole "userId"] [] [plainTag "Users"]
  | getCourses =>                 (* list courses *)
      mkCatalogRow "GET" [Lit "courses?category="; Hole "category"] [plainTag "Courses"] []
  | getCourse =>                  (* get course *)
      mkCatalogRow "GET" [Lit "courses/"; Hole "id"]
        [mkTagPattern "Courses" (Some "id")] []
  | createCourse =>               (* create course *)
      mkCatalogRow "POST" [Lit "courses"] [] [plainTag "Courses"]
  | updateCourse =>               (* update course *)
      mkCatalogRow "PUT" [Lit "courses/"; Hole "courseId"] []
        [mkTagPattern "Courses" (Some "courseId")]
  | deleteCourse =>               (* delete course *)
      mkCatalogRow "DELETE" [Lit "courses/"; Hole "courseId"] [] [plainTag "Courses"]
  | getUploadVideoUrl =>          (* get upload URL *)
      mkCatalogRow "POST"
        [Lit "courses/"; Hole "c"; Lit "/sections/"; Hole "s";
         Lit "/chapters/"; Hole "ch"; Lit "/get-upload-url"] [] []
  | getTransactions =>            (* list transactions *)
      mkCatalogRow "GET" [Lit "transactions?userId="; Hole "userId"] [] []
  | createStripePaymentIntent =>  (* create payment intent *)
      mkCatalogRow "POST" [Lit "transactions/stripe/payment-intent"] [] []
  | createTransaction =>          (* create transaction *)
      mkCatalogRow "POST" [Lit "transactions"] [] []
  | getUserEnrolledCourses =>     (* list enrolled courses *)
      mkCatalogRow "GET"
        [Lit "users/course-progress/"; Hole "userId"; Lit "/enrolled-courses"]
        [plainTag "Courses"; plainTag "UserCourseProgress"] []
  | getUserCourseProgress =>      (* get course progress *)
      mkCatalogRow "GET"
        [Lit "users/course-progress/"; Hole "userId"; Lit "/courses/"; Hole "courseId"]
        [plainTag "UserCourseProgress"] []
  | updateUserCourseProgress =>   (* update course progress *)
      mkCatalogRow "PUT"
        [Lit "users/course-progress/"; Hole "userId"; Lit "/courses/"; Hole "courseId"]
        [] [plainTag "UserCourseProgress"]
  end.

Fixpoint assoc (name : string) (env : list (string * string)) : option string :=
  match env with
  | [] => None
  | (n, v) :: rest => if String.eqb n name then Some v else assoc name rest
  end.

(** A pattern with its placeholders filled in; [None] when one is unbound. *)
Fixpoint instantiate (env : list (string * string)) (path : list Segment) : option string :=
  match path with
  | [] => Some ""
  | Lit text :: rest => tail ← instantiate env rest; Some (text +:+ tail)
  | Hole name :: rest =>
      v ← assoc name env; tail ← instantiate env rest; Some (v +:+ tail)
  end.

Definition instantiateTag (env : list (string * string)) (p : TagPattern) : option Tag :=
  match tp_id p with
  | None => Some (mkTag (tp_type p) None)
  | Some name => v ← assoc name env; Some (mkTag (tp_type p) (Some v))
  end.

Fixpoint instantiateTags (env : list (string * string)) (ps : list TagPattern)
  : option (list Tag) :=
  match ps with
  | [] => Some []
  | p :: rest =>
      t ← instantiateTag env p; ts ← instantiateTags env rest; Some (t :: ts)
  end.

(** What one call of an operation amounts to: the request line and the tags. *)
Record Operation : Type := mkOperation {
  op_method : string;
  op_path : string;
  op_provides : list Tag;
  op_invalidates : list Tag
}.


Section Conformance.

Variable formEncode : string -> string.

(** The transport adapter's join of the base URL with the path and query
    string of a request ([fetchBaseQuery] resolves every url against its
    [baseUrl]).  The join is code of the query library and is not among the
    sources: it is a parameter here. *)
Variable joinUrls : string -> string -> string.

(** The text each placeholder of a row stands for in a call with argument
    [a]: path parameters as they are, the query parameter that travels in
    [params] in its encoded form.  An omitted [category] binds nothing. *)
Definition bindings (e : Endpoint) : ArgOf e -> list (string * string) :=
  match e with
  | updateUser => fun a => [("userId", uu_userId a)]
  | getCourses => fun category =>
      match category with
      | Some c => [("category", formEncode c)]
      | None => []
      end
  | getCourse => fun id => [("id", id)]
  | createCourse => fun _ => []
  | updateCourse => fun a => [("courseId", cu_courseId a)]
  | deleteCourse => fun courseId => [("courseId", courseId)]
  | getUploadVideoUrl => fun a =>
      [("c", up_courseId a); ("s", up_sectionId a); ("ch", up_chapterId a)]
  | getTransactions => fun userId => [("userId", userId)]
  | createStripePaymentIntent => fun _ => []
  | createTransaction => fun _ => []
  | getUserEnrolledCourses => fun userId => [("userId", userId)]
  | getUserCourseProgress => fun a =>
      [("userId", pk_userId a); ("courseId", pk_courseId a)]
  | updateUserCourseProgress => fun a =>
      [("userId", pu_userId a); ("courseId", pu_courseId a)]
  end.

(** The operation as the catalog has it, its path relative to the base
    URL. *)
Definition catalogued (e : Endpoint) (a : ArgOf e) : option Operation :=
  let row := catalog e in
  let env := bindings e a in
  path ← instantiate env (row_path row);
  provides ← instantiateTags env (row_provides row);
  invalidates ← instantiateTags env (row_invalidates row);
  Some (mkOperation (row_method row) path provides invalidates).


(** The operation a call of the registry amounts to: the request the
    transport makes for the descriptor that [query] builds, and the tags the
    endpoint declares. *)
Definition requested (base : string) (e : Endpoint) (a : ArgOf e) : Operation :=
  mkOperation (requestMethod (query e a))
    (joinUrls base (requestTarget formEncode (query e a)))
    (providesTags e a) (invalidatesTags e a).


End Conformance.


(** ** The cache and tag layer *)

(** Modelled from the spec: the cache of the query library is not among the
    sources.  Section 3: a cache entry is keyed by (endpoint name, serialized
    arguments) and holds the last-known result value, a fetch status and the
    tags that force a refetch when invalidated.  The serialized arguments are
    kept as the list of their components. *)
Inductive FetchStatus : Type :=
| Fresh
| Stale.

(** Modelled from the spec: section 3, CacheEntry: the last-known result
    value, the fetch status and the tags of the query. *)
Record CacheEntry : Type := mkCacheEntry {
  entry_value : value;
  entry_status : FetchStatus;
  entry_tags : list Tag
}.

Abbreviation QueryCacheKey := (string * list string)%type.
Abbreviation Cache := (gmap (string * list string) CacheEntry).

(** An entry with another value, and an entry marked stale. *)
Definition withValue (v : value) (e : CacheEntry) : CacheEntry :=
  mkCacheEntry v (entry_status e) (entry_tags e).

Definition markStale (e : CacheEntry) : CacheEntry :=
  mkCacheEntry (entry_value e) Stale (entry_tags e).

(** Modelled from the spec: section 4.3, invalidation is coarse (a tag without
    id reaches every entry tagged with its type) unless the invalidated tag
    names an entity id, which reaches the entries tagged with that very id. *)
Definition tagReaches (invalidated provided : Tag) : bool :=
  bool_decide (tag_type invalidated = tag_type provided)
  && match tag_id invalidated with
     | None => true
     | Some id => bool_decide (tag_id provided = Some id)
     end.

(** Modelled from the spec: an entry carries an invalidated tag when one of
    the tags of its query is reached by it (section 4.3). *)
Definition carries (t : Tag) (e : CacheEntry) : bool :=
  existsb (tagReaches t) (entry_tags e).

(** Modelled from the spec: section 4.3, "all cache entries carrying an
    invalidated tag are marked stale and refetched".  The keys of the entries
    to refetch: *)
Definition refetchSet (t : Tag) (c : Cache) : gset (string * list string) :=
  dom (filter (fun kv => carries t kv.2 = true) c).

(** Modelled from the spec: invalidating one tag (section 4.3) gives the
    cache with the entries that carry it marked stale, and the set of entries
    to refetch. *)
Definition invalidateTag (t : Tag) (c : Cache) : Cache * gset (string * list string) :=
  ((fun e => if carries t e then markStale e else e) <$> c, refetchSet t c).

(** Modelled from the spec: invalidating the tags a mutation declares, one
    after the other; the refetches add up. *)
Fixpoint invalidate (ts : list Tag) (c : Cache) : Cache * gset (string * list string) :=
  match ts with
  | [] => (c, ∅)
  | t :: rest =>
      let '(c1, r1) := invalidateTag t c in
      let '(c2, r2) := invalidate rest c1 in
      (c2, r1 ∪ r2)
  end.

(** Modelled from the spec: the patch handle of the query library (section 3,
    OptimisticPatch: "holding enough information to undo itself"; section 5:
    an undo refers to its own snapshot).  [None] is the handle of a patch that
    changed nothing. *)
Record PatchResult : Type := mkPatchResult {
  patched : option (QueryCacheKey * value)
}.

(** Modelled from the spec: [api.util.updateQueryData] of the query library
    (section 4.4): the recipe is applied to the cached value of the entry
    under the key; without an entry the patch is a no-op.  The recipe gets a
    draft of the cached object. *)
Definition updateQueryData (endpointName : string) (arg : list string)
    (recipe : obj -> obj) (c : Cache) : Cache * PatchResult :=
  match c !! (endpointName, arg) with
  | Some e =>
      match entry_value e with
      | JObj draft =>
          (<[(endpointName, arg) := withValue (JObj (recipe draft)) e]> c,
           mkPatchResult (Some ((endpointName, arg), entry_value e)))
      | _ => (c, mkPatchResult None)
      end
  | None => (c, mkPatchResult None)
  end.

(** Modelled from the spec: [patchResult.undo()] restores the entry to its
    value before the patch (section 4.4, state Reverted). *)
Definition undo (p : PatchResult) (c : Cache) : Cache :=
  match patched p with
  | Some (key, before) => alter (withValue before) key c
  | None => c
  end.

(** ** The optimistic update of [updateUserCourseProgress] *)

(** [{ ...o, k: v }] and [Object.assign(target, source)] on objects. *)
Definition spreadWith (o : obj) (k : string) (v : value) : obj := <[k := v]> o.
Definition objectAssign (target source : obj) : obj := source ∪ target.

(** The recipe handed to [updateQueryData]:
    [(draft) => { Object.assign(draft, { ...draft, sections: progressData.sections }) }] *)
Definition progressRecipe (progressData : obj) (draft : obj) : obj :=
  objectAssign draft (spreadWith draft "sections" (field progressData "sections")).

(** How [queryFulfilled] settles. *)
Inductive Settled : Type :=
| Fulfilled
| Rejected.

(** [onQueryStarted]: the part that runs at once (up to the [await]) gives the
    patched cache; the rest waits for [queryFulfilled] and then runs on the
    cache as it is by then. *)
Definition onQueryStarted (a : ProgressUpdate) (c : Cache)
  : Cache * (Settled -> Cache -> Cache) :=
  let '(c1, patchResult) :=
    updateQueryData "getUserCourseProgress" [pu_userId a; pu_courseId a]
      (progressRecipe (pu_progressData a)) c in
  (c1, fun settled c2 =>
         match settled with
         | Fulfilled => c2
         | Rejected => undo patchResult c2
         end).

(** The cache right after the call, while the request is in flight. *)
Definition pending (a : ProgressUpdate) (c : Cache) : Cache :=
  (onQueryStarted a c).1.

(** The cache once the request has settled, nothing else having touched it. *)
Definition settledCache (a : ProgressUpdate) (settled : Settled) (c : Cache) : Cache :=
  let '(c1, resume) := onQueryStarted a c in resume settled c1.

(** Modelled from the spec: the life of one [updateUserCourseProgress] call in
    the query library (section 4.4): the optimistic update, then, whatever the
    outcome, the invalidation of the tags the endpoint declares. *)
Definition runUpdateUserCourseProgress (a : ProgressUpdate) (settled : Settled)
    (c : Cache) : Cache * gset (string * list string) :=
  invalidate (invalidatesTags updateUserCourseProgress a) (settledCache a settled c).

(** The sections a cached progress entry reads. *)
Definition cachedSections (userId courseId : string) (c : Cache) : option value :=
  e ← c !! ("getUserCourseProgress", [userId; courseId]);
  match entry_value e with
  | JObj progress => progress !! "sections"
  | _ => None
  end.


(** ** Vocabulary of the properties *)

(** The transport result carries an error: the branch [customBaseQuery]
    takes first. *)
Definition ErrorResult (result : obj) (error : value) : Prop :=
  result !! "error" = Some error ∧ truthy error = true.

(** The transport result is a success carrying [payload]. *)
Definition SuccessResult (result : obj) (payload : value) : Prop :=
  (∀ error, ¬ ErrorResult result error) ∧ result !! "data" = Some payload.

(** The [data] field nested in a payload, when the payload is an object that
    has one. *)
Definition nestedData (payload : value) : option value :=
  match payload with
  | JObj envelope => envelope !! "data"
  | _ => None
  end.

(** The [message] field of a response body, when the body is an object that
    has one. *)
Definition messageOf (responseBody : value) : option value :=
  match responseBody with
  | JObj envelope => envelope !! "message"
  | _ => None
  end.

(** The body and the status of an error: its [data] and [status] fields. *)
Definition errorBody (error : value) : value := getProp error "data".

Definition statusOf (error : value) : option value :=
  match error with
  | JObj e => e !! "status"
  | _ => None
  end.

(** The value the cache and the UI receive, when the call returns. *)
Definition delivered (m : Toasting obj) : option value :=
  result ← returned m; Some (field result "data").

(** The descriptor declares the HTTP method [m]. *)
Definition declaresMethod (args : Args) (m : string) : Prop :=
  ∃ a, args = ArgFetch a ∧ method a = Some m ∧ m ≠ "".

(** A read: the descriptor declares no method, or declares GET. *)
Definition isRead (args : Args) : Prop :=
  ∀ m, declaresMethod args m → m = "GET".

Definition isSuccessToast (t : Toast) : Prop :=
  match t with
  | ToastSuccess _ => True
  | ToastError _ => False
  end.

(** ** Sample data *)

(** A transport that resolves to [result] whatever it is asked. *)
Definition answering (result : obj) : Args -> obj := fun _ => result.

(** The course of the scenarios of section 8. *)
Definition course_c1 : value :=
  JObj {[ "id" := JStr "c1"; "title" := JStr "X" ]}.

(** [{ data: 0 }]: an envelope around a falsy value. *)
Definition zero_envelope : value := JObj {[ "data" := JNum 0 ]}.

(** [{ message: "" }]: a body whose message is the empty string. *)
Definition empty_message : value := JObj {[ "message" := JStr "" ]}.

(** [{ status: 500, data: { message: "" } }] *)
Definition error_500_empty_message : value :=
  JObj {[ "status" := JNum 500; "data" := empty_message ]}.

(** [{ status: 404, data: { message: "Course not found" } }] *)
Definition error_404 : value :=
  JObj {[ "status" := JNum 404;
          "data" := JObj {[ "message" := JStr "Course not found" ]} ]}.

(** [{ status: 500, data: { data: "inner", message: "boom" } }] *)
Definition error_500_enveloped : value :=
  JObj {[ "status" := JNum 500;
          "data" := JObj {[ "data" := JStr "inner"; "message" := JStr "boom" ]} ]}.

Definition meta_c1 : value := JObj {[ "request" := JStr "courses/c1" ]}.

(** [{ status: 500, data: { message: { toString: 1 } } }]: a message that
    cannot be converted to a string. *)
Definition error_500_unprintable : value :=
  JObj {[ "status" := JNum 500;
          "data" := JObj {[ "message" := JObj {[ "toString" := JNum 1 ]} ]} ]}.

(** A join that puts one slash between the base URL and the url, whether or
    not the url brings one. *)
Definition slashJoin (base u : string) : string :=
  base +:+ "/" +:+ match u with
                   | String "/" rest => rest
                   | _ => u
                   end.

(** A cache that holds one course and no progress entry. *)
Definition cache_of_courses : Cache :=
  {[ ("getCourse", ["c1"]) :=
       mkCacheEntry course_c1 Fresh [mkTag "Courses" (Some "c1")] ]}.

(** A cache that holds the progress of user [u1] in course [c1]. *)
Definition cache_of_progress : Cache :=
  {[ ("getUserCourseProgress", ["u1"; "c1"]) :=
       mkCacheEntry (JObj {[ "courseId" := JStr "c1"; "sections" := JArr [JStr "s1"] ]})
         Fresh [tagOf "UserCourseProgress"] ]}.

(** An update of that progress to two sections. *)
Definition progress_update : ProgressUpdate :=
  mkProgressUpdate "u1" "c1" {[ "sections" := JArr [JStr "s1"; JStr "s2"] ]}.


(** ** The authorization header *)

(** The [Headers] of the Fetch API.  Names are case-insensitive: a header is
    kept under its name in lower case. *)
Definition lowerAscii (c : ascii) : ascii :=
  let n := nat_of_ascii c in
  if (65 <=? n)%nat && (n <=? 90)%nat then ascii_of_nat (n + 32) else c.

Fixpoint lowerCase (s : string) : string :=
  match s with
  | EmptyString => EmptyString
  | String c rest => String (lowerAscii c) (lowerCase rest)
  end.

Abbreviation Headers := (gmap string string).

Fixpoint allChars (p : ascii -> bool) (s : string) : bool :=
  match s with
  | EmptyString => true
  | String c rest => p c && allChars p rest
  end.

(** HTTP whitespace: tab, line feed, carriage return, space. *)
Definition isHttpWhitespace (c : ascii) : bool :=
  let n := nat_of_ascii c in
  (n =? 9)%nat || (n =? 10)%nat || (n =? 13)%nat || (n =? 32)%nat.

(** A header value is first normalized: HTTP whitespace is stripped from
    both its ends. *)
Fixpoint trimStart (s : string) : string :=
  match s with
  | EmptyString => EmptyString
  | String c rest => if isHttpWhitespace c then trimStart rest else s
  end.

Fixpoint trimEnd (s : string) : string :=
  match s with
  | EmptyString => EmptyString
  | String c rest =>
      match trimEnd rest with
      | EmptyString => if isHttpWhitespace c then EmptyString else String c EmptyString
      | kept => String c kept
      end
  end.

Definition normalizeValue (v : string) : string := trimStart (trimEnd v).

(** A header value holds no NUL, line feed or carriage return. *)
Definition isHeaderValue (v : string) : bool :=
  allChars (fun c => let n := nat_of_ascii c in
                     negb ((n =? 0)%nat || (n =? 10)%nat || (n =? 13)%nat)) v.

(** A header name is a non-empty token: letters, digits and
    [! # $ % & ' * + - . ^ _ ` | ~]. *)
Definition isTokenChar (c : ascii) : bool :=
  let n := nat_of_ascii c in
  ((48 <=? n)%nat && (n <=? 57)%nat)
  || ((65 <=? n)%nat && (n <=? 90)%nat)
  || ((97 <=? n)%nat && (n <=? 122)%nat)
  || existsb (Nat.eqb n) [33; 35; 36; 37; 38; 39; 42; 43; 45; 46; 94; 95; 96; 124; 126].

Definition isHeaderName (name : string) : bool :=
  negb (String.eqb name "") && allChars isTokenChar name.

(** [headers.set(name, v)]: the value is normalized; a name or a value that
    is not valid throws a TypeError ([None]); otherwise the header replaces
    the one of that name.  (Strings here hold code units up to U+00FF, so
    that the conversion of [v] to a byte string cannot fail.) *)
Definition headersSet (name v : string) (headers : Headers) : option Headers :=
  let value := normalizeValue v in
  if isHeaderName name && isHeaderValue value
  then Some (<[lowerCase name := value]> headers)
  else None.

(** [Clerk.session], as far as the program uses it: [getToken] is what the
    promise of [getToken()] resolves to, a string or [null]. *)
Record ClerkSession : Type := mkClerkSession {
  getToken : value
}.

(** [window.Clerk]; its [session] is [None] while it is [null] or
    [undefined]. *)
Record ClerkGlobal : Type := mkClerkGlobal {
  session : option ClerkSession
}.

(** The [window] global, as [prepareHeaders] reads it; [Clerk] is [None]
    where [window.Clerk] is [undefined]. *)
Record BrowserWindow : Type := mkBrowserWindow {
  Clerk : option ClerkGlobal
}.

(** [prepareHeaders]; [window] is [None] where [typeof window] is
    ["undefined"].  [None] is returned when the template literal or
    [headers.set] throws. *)
Definition prepareHeaders (numberToString : Z -> string)
    (window : option BrowserWindow) (headers : Headers) : option Headers :=
  match window with
  | Some w =>
      match Clerk w with
      | Some clerk =>
          let token := from_option getToken JUndefined (session clerk) in
          if truthy token
          then text ← toString numberToString token;
               headersSet "Authorization" ("Bearer " +:+ text) headers
          else Some headers
      | None => Some headers
      end
  | None => Some headers
  end.

(** The token the session provider hands out, when there is a browser, a
    Clerk global and a session. *)
Definition sessionToken (window : option BrowserWindow) : option value :=
  w ← window; clerk ← Clerk w; s ← session clerk; Some (getToken s).

(** A string of visible ASCII characters: no blank, no control character. *)
Definition isVisible (s : string) : bool :=
  allChars (fun c => let n := nat_of_ascii c in (33 <=? n)%nat && (n <=? 126)%nat) s.


(** ** Kinds of endpoints, and arguments as objects *)

(** [build.query] or [build.mutation]. *)
Inductive EndpointKind : Type :=
| Query
| Mutation.

Definition endpointKind (e : Endpoint) : EndpointKind :=
  match e with
  | updateUser => Mutation
  | getCourses => Query
  | getCourse => Query
  | createCourse => Mutation
  | updateCourse => Mutation
  | deleteCourse => Mutation
  | getUploadVideoUrl => Mutation
  | getTransactions => Query
  | createStripePaymentIntent => Mutation
  | createTransaction => Mutation
  | getUserEnrolledCourses => Query
  | getUserCourseProgress => Query
  | updateUserCourseProgress => Mutation
  end.

(** The parameter pattern of [updateUser], [{ userId, ...updatedUser }], on
    the object the hook is called with: [userId] is the property of that
    name, as the template literal of the url prints it ([None] when that
    conversion throws), [updatedUser] the other properties. *)
Definition destructureUser (numberToString : Z -> string) (user : obj)
  : option UserUpdate :=
  userId ← toString numberToString (field user "userId");
  Some (mkUserUpdate userId (delete "userId" user)).

(** The url of a descriptor. *)
Definition urlOf (args : Args) : string :=
  match args with
  | ArgUrl u => u
  | ArgFetch a => url a
  end.

(** The body of a descriptor, [undefined] where there is none. *)
Definition bodyOf (args : Args) : value :=
  match args with
  | ArgUrl _ => JUndefined
  | ArgFetch a => default JUndefined (body a)
  end.

(** A string without a slash. *)
Fixpoint noSlash (s : string) : bool :=
  match s with
  | EmptyString => true
  | String c rest => negb (Ascii.eqb c "/") && noSlash rest
  end.

(** Some tag of [invalidated] reaches some tag of [provided]. *)
Definition invalidationReaches (invalidated provided : list Tag) : bool :=
  existsb (fun t => existsb (tagReaches t) provided) invalidated.

(** The key of the cache entry of [getUserCourseProgress] that an update
    addresses. *)
Definition progressKey (a : ProgressUpdate) : QueryCacheKey :=
  ("getUserCourseProgress", [pu_userId a; pu_courseId a]).

(** A browser whose session hands out a token that ends in a blank. *)
Definition signed_in_blank : option BrowserWindow :=
  Some (mkBrowserWindow (Some (mkClerkGlobal (Some (mkClerkSession (JStr "tok ")))))).

(** A browser whose session hands out the token [tok_1]. *)
Definition signed_in : option BrowserWindow :=
  Some (mkBrowserWindow (Some (mkClerkGlobal (Some (mkClerkSession (JStr "tok_1")))))).

(** A browser whose Clerk global has no session yet. *)
Definition signed_out : option BrowserWindow :=
  Some (mkBrowserWindow (Some (mkClerkGlobal None))).

(** [{ status: 503 }]: an error without a body. *)
Definition error_503 : value := JObj {[ "status" := JNum 503 ]}.

(** [{ message: "saved", data: course_c1 }] *)
Definition saved_envelope : value :=
  JObj {[ "message" := JStr "saved"; "data" := course_c1 ]}.

(** [{ userId: "u1", firstName: "Ada" }] *)
Definition user_u1 : obj := {[ "userId" := JStr "u1"; "firstName" := JStr "Ada" ]}.


(** * Properties *)

(** ** Scenarios of the specification, run on the embedding *)

Example toString_status : toString string_of_Z (JNum 500) = Some "500".
Proof. reflexivity. Qed.

Example toString_array :
  toString string_of_Z (JArr [JStr "a"; JNull; JNum (-3)]) = Some "a,,-3".
Proof. reflexivity. Qed.

Example toString_own_property :
  toString string_of_Z (JObj {[ "toString" := JNum 1 ]}) = None.
Proof. reflexivity. Qed.

Example getCourse_scenario :
  customBaseQuery string_of_Z (answering {[ "data" := JObj {[ "data" := course_c1 ]} ]})
    (query getCourse "c1")
  = (Some {[ "data" := course_c1 ]}, []).
Proof. vm_compute. reflexivity. Qed.

Example deleteCourse_scenario :
  customBaseQuery string_of_Z
    (answering {[ "data" := JObj {[ "message" := JStr "deleted" ]} ]})
    (query deleteCourse "c1")
  = (Some {[ "data" := JObj {[ "message" := JStr "deleted" ]} ]},
     [ToastSuccess (JStr "deleted")]).
Proof. vm_compute. reflexivity. Qed.

Example status_500_scenario :
  toasts (customBaseQuery string_of_Z
            (answering {[ "error" := JObj {[ "status" := JNum 500 ]} ]})
            (query updateUserCourseProgress (mkProgressUpdate "u1" "c1" ∅)))
  = [ToastError "Error: 500"].
Proof. vm_compute. reflexivity. Qed.

(** ** The response middleware *)

(** Settles [ErrorResult] and [SuccessResult] on a concrete transport result
    by running the lookups. *)
Ltac concrete_result :=
  lazymatch goal with
  | |- ErrorResult _ _ => split; vm_compute; reflexivity
  | |- SuccessResult _ _ =>
      split;
      [ let Hlook := fresh "Hlook" in
        intros ? [Hlook _]; vm_compute in Hlook; discriminate Hlook
      | vm_compute; reflexivity ]
  end.

Section MiddlewareFacts.

Variable numberToString : Z -> string.
Variable rawBaseQuery : Args -> obj.

Lemma hasProp_Some (o : obj) k v : o !! k = Some v → hasProp o k = true.
Proof. intros H. unfold hasProp. apply bool_decide_eq_true. eauto. Qed.

Lemma hasProp_None (o : obj) k : o !! k = None → hasProp o k = false.
Proof.
  intros H. unfold hasProp. apply bool_decide_eq_false.
  rewrite H. intros [? ?]. discriminate.
Qed.

Lemma field_Some (o : obj) k v : o !! k = Some v → field o k = v.
Proof. intros H. unfold field. by rewrite H. Qed.

Lemma error_guard_true result error :
  ErrorResult result error →
  hasProp result "error" && truthy (field result "error") = true.
Proof.
  intros [Hlook Htruthy].
  by rewrite (hasProp_Some _ _ _ Hlook), (field_Some _ _ _ Hlook), Htruthy.
Qed.

Lemma error_guard_false result :
  (∀ error, ¬ ErrorResult result error) →
  hasProp result "error" && truthy (field result "error") = false.
Proof.
  intros Hnone.
  destruct (result !! "error") as [error|] eqn:Hlook.
  - rewrite (hasProp_Some _ _ _ Hlook), (field_Some _ _ _ Hlook). simpl.
    destruct (truthy error) eqn:Htruthy; [|done].
    exfalso. by apply (Hnone error).
  - by rewrite (hasProp_None _ _ Hlook).
Qed.

(** The error branch, spelled out. *)
Lemma customBaseQuery_error args error :
  ErrorResult (rawBaseQuery args) error →
  customBaseQuery numberToString rawBaseQuery args
  = (errorMessage ←
       (if truthy (getProp (coalesce (errorBody error) (JObj ∅)) "message")
        then mret (getProp (coalesce (errorBody error) (JObj ∅)) "message")
        else
          status ← optToString numberToString (getProp error "status");
          mret (or_else status (JStr "An error occurred")));
     text ← evaluate (toString numberToString errorMessage);
     toast_error ("Error: " +:+ text) ;;
     mret (rawBaseQuery args)).
Proof.
  intros Herr. unfold customBaseQuery.
  rewrite (error_guard_true _ _ Herr).
  destruct Herr as [Hlook _]. rewrite (field_Some _ _ _ Hlook).
  reflexivity.
Qed.

(** The server's message is truthy: it is what is shown, if it prints. *)
Lemma customBaseQuery_error_message args error m :
  ErrorResult (rawBaseQuery args) error →
  getProp (coalesce (errorBody error) (JObj ∅)) "message" = m →
  truthy m = true →
  customBaseQuery numberToString rawBaseQuery args
  = match toString numberToString m with
    | Some text => (Some (rawBaseQuery args), [ToastError ("Error: " +:+ text)])
    | None => (None, [])
    end.
Proof.
  intros Herr Hm Htruthy. rewrite (customBaseQuery_error _ _ Herr), Hm, Htruthy.
  cbv [mbind mret toasting_bind toasting_ret evaluate toast_error].
  by destruct (toString numberToString m).
Qed.

(** The server's message is falsy: the status is shown, if it prints and
    prints as something, and the fallback otherwise. *)
Lemma customBaseQuery_error_status args error s :
  ErrorResult (rawBaseQuery args) error →
  truthy (getProp (coalesce (errorBody error) (JObj ∅)) "message") = false →
  getProp error "status" = s →
  customBaseQuery numberToString rawBaseQuery args
  = if nullish s
    then (Some (rawBaseQuery args), [ToastError "Error: An error occurred"])
    else match toString numberToString s with
         | Some text =>
             (Some (rawBaseQuery args),
              [ToastError ("Error: " +:+
                 (if String.eqb text "" then "An error occurred" else text))])
         | None => (None, [])
         end.
Proof.
  intros Herr Hfalsy Hs. rewrite (customBaseQuery_error _ _ Herr), Hfalsy, Hs.
  unfold optToString.
  cbv [mbind mret toasting_bind toasting_ret evaluate toast_error].
  destruct (nullish s); [reflexivity|].
  destruct (toString numberToString s) as [text|]; [|reflexivity].
  unfold or_else. simpl.
  by destruct (String.eqb_spec text "") as [->|Hne].
Qed.

(** The success branch, spelled out: what is returned, and what is
    notified. *)
Lemma customBaseQuery_success args payload :
  SuccessResult (rawBaseQuery args) payload →
  customBaseQuery numberToString rawBaseQuery args
  = (Some (if truthy payload && truthy (getProp payload "data")
           then <["data" := getProp payload "data"]> (rawBaseQuery args)
           else rawBaseQuery args),
     if truthy (argsMethod args) && strictNeqStr (argsMethod args) "GET"
     then if truthy (optProp payload "message")
          then [ToastSuccess (getProp payload "message")]
          else []
     else []).
Proof.
  intros [Hnone Hdata]. unfold customBaseQuery.
  rewrite (error_guard_false _ Hnone).
  rewrite (hasProp_Some _ _ _ Hdata), (field_Some _ _ _ Hdata). simpl.
  destruct (truthy (argsMethod args) && strictNeqStr (argsMethod args) "GET");
    [destruct (truthy (optProp payload "message"))|];
    destruct (truthy payload && truthy (getProp payload "data"));
    reflexivity.
Qed.

End MiddlewareFacts.

Lemma nestedData_Some payload x :
  nestedData payload = Some x →
  truthy payload = true ∧ getProp payload "data" = x.
Proof.
  destruct payload; simpl; try discriminate.
  intros ->. done.
Qed.

Lemma nestedData_None payload :
  nestedData payload = None → getProp payload "data" = JUndefined.
Proof.
  destruct payload; simpl; try done.
  intros ->. done.
Qed.

Lemma messageOf_Some body m :
  messageOf body = Some m →
  optProp body "message" = m ∧ getProp body "message" = m.
Proof.
  destruct body; simpl; try discriminate.
  unfold optProp. simpl. intros ->. done.
Qed.

Lemma messageOf_None body :
  messageOf body = None → optProp body "message" = JUndefined.
Proof.
  destruct body; unfold optProp; simpl; try done.
  intros ->. done.
Qed.

Lemma delivered_insert (result : obj) v :
  field (<["data" := v]> result) "data" = v.
Proof. unfold field. by rewrite lookup_insert_eq. Qed.

(** C1, as the claim has it, fails on a nested [data] that is falsy: for the
    successful payload [{ data: 0 }] the middleware delivers the wrapper
    [{ data: 0 }], not the nested [0]. *)
Lemma envelope_unwrap_falsy_counterexample :
  SuccessResult (answering {[ "data" := zero_envelope ]} (query getCourse "c1"))
    zero_envelope
  ∧ nestedData zero_envelope = Some (JNum 0)
  ∧ delivered (customBaseQuery string_of_Z (answering {[ "data" := zero_envelope ]})
                 (query getCourse "c1")) = Some zero_envelope
  ∧ delivered (customBaseQuery string_of_Z (answering {[ "data" := zero_envelope ]})
                 (query getCourse "c1")) ≠ Some (JNum 0).
Proof.
  split; [concrete_result|]. split; [reflexivity|].
  split; vm_compute; [reflexivity|].
  intros H. discriminate H.
Qed.

(** C1 (amended): for every successful transport result whose payload is an
    object containing a nested [data] field with a truthy value, the
    middleware delivers exactly that nested value (one level of unwrap); for
    every successful payload without a nested [data] field, or whose nested
    [data] is falsy ([undefined], [null], [false], [0], the empty string), the
    payload is delivered unchanged. *)
Theorem envelope_unwrap_truthy (numberToString : Z -> string)
    (rawBaseQuery : Args -> obj) args payload :
  SuccessResult (rawBaseQuery args) payload →
  (∀ x, nestedData payload = Some x → truthy x = true →
        delivered (customBaseQuery numberToString rawBaseQuery args) = Some x)
  ∧ (∀ x, nestedData payload = Some x → truthy x = false →
          delivered (customBaseQuery numberToString rawBaseQuery args) = Some payload)
  ∧ (nestedData payload = None →
     delivered (customBaseQuery numberToString rawBaseQuery args) = Some payload).
Proof.
  intros Hok. unfold delivered, returned.
  rewrite (customBaseQuery_success _ _ _ _ Hok). simpl.
  destruct Hok as [_ Hdata].
  split; [|split].
  - intros x Hnested Htruthy.
    destruct (nestedData_Some _ _ Hnested) as [-> ->].
    rewrite Htruthy. simpl. by rewrite delivered_insert.
  - intros x Hnested Hfalsy.
    destruct (nestedData_Some _ _ Hnested) as [-> ->].
    rewrite Hfalsy. simpl. by rewrite (field_Some _ _ _ Hdata).
  - intros Hnone. rewrite (nestedData_None _ Hnone).
    rewrite andb_false_r. by rewrite (field_Some _ _ _ Hdata).
Qed.

Lemma envelope_unwrap_truthy_witness :
  delivered
    (customBaseQuery string_of_Z (answering {[ "data" := JObj {[ "data" := course_c1 ]} ]})
       (query getCourse "c1"))
  = Some course_c1.
Proof.
  apply (envelope_unwrap_truthy string_of_Z
           (answering {[ "data" := JObj {[ "data" := course_c1 ]} ]})
           (query getCourse "c1") (JObj {[ "data" := course_c1 ]})).
  - concrete_result.
  - vm_compute. reflexivity.
  - reflexivity.
Defined.

(** C2, as the claim has it, fails on a server message that is present but
    empty: for the error [{ status: 500, data: { message: "" } }] the
    notification carries the status, not the (empty) server message. *)
Lemma error_message_empty_counterexample :
  ErrorResult (answering {[ "error" := error_500_empty_message ]} (query deleteCourse "c1"))
    error_500_empty_message
  ∧ messageOf (errorBody error_500_empty_message) = Some (JStr "")
  ∧ toasts (customBaseQuery string_of_Z (answering {[ "error" := error_500_empty_message ]})
              (query deleteCourse "c1"))
    = [ToastError "Error: 500"]
  ∧ toasts (customBaseQuery string_of_Z (answering {[ "error" := error_500_empty_message ]})
              (query deleteCourse "c1"))
    ≠ [ToastError ("Error: " +:+ "")].
Proof.
  split; [concrete_result|]. split; [vm_compute; reflexivity|].
  split; vm_compute; [reflexivity|].
  intros H. discriminate H.
Qed.

Lemma errorBody_message error m :
  messageOf (errorBody error) = Some m →
  getProp (coalesce (errorBody error) (JObj ∅)) "message" = m.
Proof.
  destruct (errorBody error); simpl; try discriminate.
  intros ->. done.
Qed.

Lemma errorBody_no_message error :
  messageOf (errorBody error) = None →
  getProp (coalesce (errorBody error) (JObj ∅)) "message" = JUndefined.
Proof.
  destruct (errorBody error); simpl; try done.
  intros ->. done.
Qed.

Lemma errorBody_falsy error :
  (messageOf (errorBody error) = None
   ∨ ∃ m, messageOf (errorBody error) = Some m ∧ truthy m = false) →
  truthy (getProp (coalesce (errorBody error) (JObj ∅)) "message") = false.
Proof.
  intros [Hnone | (m & Hm & Hfalsy)].
  - by rewrite (errorBody_no_message _ Hnone).
  - by rewrite (errorBody_message _ _ Hm).
Qed.

Lemma statusOf_Some error s : statusOf error = Some s → getProp error "status" = s.
Proof. destruct error; simpl; try discriminate. intros ->. done. Qed.

Lemma statusOf_None error : statusOf error = None → getProp error "status" = JUndefined.
Proof. destruct error; simpl; try done. intros ->. done. Qed.

Lemma or_else_truthy a b : truthy a = true → or_else a b = a.
Proof. intros H. unfold or_else. by rewrite H. Qed.

Lemma or_else_falsy a b : truthy a = false → or_else a b = b.
Proof. intros H. unfold or_else. by rewrite H. Qed.

Lemma truthy_JStr s : truthy (JStr s) = true ↔ s ≠ "".
Proof.
  simpl. rewrite negb_true_iff.
  destruct (String.eqb_spec s ""); split; intros; congruence.
Qed.

(** C2 (amended): for every error result whose message to show can be
    converted to a string, exactly one error notification is emitted,
    [Error: ] followed by a message chosen in this order: the server-supplied
    [message] field if it is present and truthy (in particular not the empty
    string); else the status converted to a string, if the error has a status
    other than [null] or [undefined] whose string is not empty; else the
    generic fallback [An error occurred].  (A string, as [ErrorResponse]
    types the message, always converts; so do numbers and booleans.) *)
Theorem error_notification_precedence (numberToString : Z -> string)
    (rawBaseQuery : Args -> obj) args error :
  ErrorResult (rawBaseQuery args) error →
  (∀ m text, messageOf (errorBody error) = Some m → truthy m = true →
             toString numberToString m = Some text →
             toasts (customBaseQuery numberToString rawBaseQuery args)
             = [ToastError ("Error: " +:+ text)])
  ∧ ((messageOf (errorBody error) = None
      ∨ ∃ m, messageOf (errorBody error) = Some m ∧ truthy m = false) →
     (∀ s text, statusOf error = Some s → nullish s = false →
                toString numberToString s = Some text → text ≠ "" →
                toasts (customBaseQuery numberToString rawBaseQuery args)
                = [ToastError ("Error: " +:+ text)])
     ∧ ((statusOf error = None
         ∨ ∃ s, statusOf error = Some s
                ∧ (nullish s = true ∨ toString numberToString s = Some "")) →
        toasts (customBaseQuery numberToString rawBaseQuery args)
        = [ToastError "Error: An error occurred"])).
Proof.
  intros Herr. split.
  - intros m text Hm Htruthy Htext.
    rewrite (customBaseQuery_error_message _ _ _ _ m Herr (errorBody_message _ _ Hm) Htruthy).
    by rewrite Htext.
  - intros Hout. pose proof (errorBody_falsy _ Hout) as Hfalsy. split.
    + intros s text Hs Hnn Htext Hne.
      rewrite (customBaseQuery_error_status _ _ _ _ s Herr Hfalsy (statusOf_Some _ _ Hs)).
      rewrite Hnn, Htext. apply String.eqb_neq in Hne. by rewrite Hne.
    + intros [Hnone | (s & Hs & [Hnull | Hempty])].
      * by rewrite (customBaseQuery_error_status _ _ _ _ JUndefined Herr Hfalsy
                      (statusOf_None _ Hnone)).
      * rewrite (customBaseQuery_error_status _ _ _ _ s Herr Hfalsy (statusOf_Some _ _ Hs)).
        by rewrite Hnull.
      * rewrite (customBaseQuery_error_status _ _ _ _ s Herr Hfalsy (statusOf_Some _ _ Hs)).
        rewrite Hempty. by destruct (nullish s).
Qed.

Lemma error_notification_precedence_witness :
  toasts (customBaseQuery string_of_Z (answering {[ "error" := error_404 ]})
            (query getCourse "c9"))
  = [ToastError "Error: Course not found"].
Proof.
  apply (proj1 (error_notification_precedence string_of_Z
                  (answering {[ "error" := error_404 ]}) (query getCourse "c9") error_404
                  ltac:(concrete_result))
           (JStr "Course not found") "Course not found");
    vm_compute; reflexivity.
Defined.

(** C5, as the claim has it, fails on an error whose message cannot be
    converted to a string: for [{ status: 500, data: { message: { toString:
    1 } } }] the template literal throws, and the call neither notifies nor
    returns the error result. *)
Lemma error_result_throws_counterexample :
  ErrorResult (answering {[ "error" := error_500_unprintable ]} (query deleteCourse "c1"))
    error_500_unprintable
  ∧ customBaseQuery string_of_Z (answering {[ "error" := error_500_unprintable ]})
      (query deleteCourse "c1")
    = (None, [])
  ∧ returned (customBaseQuery string_of_Z (answering {[ "error" := error_500_unprintable ]})
                (query deleteCourse "c1"))
    ≠ Some (answering {[ "error" := error_500_unprintable ]} (query deleteCourse "c1")).
Proof.
  split; [concrete_result|].
  split; vm_compute; [reflexivity|].
  intros H. discriminate H.
Qed.

(** On an error result the call either notifies once and returns the result
    as it is, or throws before doing either. *)
Lemma customBaseQuery_error_outcomes (numberToString : Z -> string)
    (rawBaseQuery : Args -> obj) args error :
  ErrorResult (rawBaseQuery args) error →
  (∃ text, customBaseQuery numberToString rawBaseQuery args
           = (Some (rawBaseQuery args), [ToastError ("Error: " +:+ text)]))
  ∨ customBaseQuery numberToString rawBaseQuery args = (None, []).
Proof.
  intros Herr.
  destruct (truthy (getProp (coalesce (errorBody error) (JObj ∅)) "message")) eqn:Hm.
  - rewrite (customBaseQuery_error_message _ _ _ _ _ Herr eq_refl Hm).
    destruct (toString numberToString _); eauto.
  - rewrite (customBaseQuery_error_status _ _ _ _ _ Herr Hm eq_refl).
    destruct (nullish _); [eauto|].
    destruct (toString numberToString _); eauto.
Qed.

(** C5 (amended): for every error result whose message to show can be
    converted to a string (the server's [message] when truthy, otherwise the
    status), the middleware returns the error result unchanged to the caller:
    the error shape is not altered and no envelope unwrap is applied.  On
    every error result, whatever the call returns is that unchanged result,
    and no success notification is emitted. *)
Theorem error_result_unchanged (numberToString : Z -> string)
    (rawBaseQuery : Args -> obj) args error :
  ErrorResult (rawBaseQuery args) error →
  (∀ m, messageOf (errorBody error) = Some m → truthy m = true →
        is_Some (toString numberToString m) →
        returned (customBaseQuery numberToString rawBaseQuery args)
        = Some (rawBaseQuery args))
  ∧ ((messageOf (errorBody error) = None
      ∨ ∃ m, messageOf (errorBody error) = Some m ∧ truthy m = false) →
     (∀ s, statusOf error = Some s → is_Some (toString numberToString s)) →
     returned (customBaseQuery numberToString rawBaseQuery args)
     = Some (rawBaseQuery args))
  ∧ (∀ out, returned (customBaseQuery numberToString rawBaseQuery args) = Some out →
            out = rawBaseQuery args)
  ∧ Forall (fun t => ¬ isSuccessToast t)
      (toasts (customBaseQuery numberToString rawBaseQuery args)).
Proof.
  intros Herr. split; [|split; [|split]].
  - intros m Hm Htruthy [text Htext].
    rewrite (customBaseQuery_error_message _ _ _ _ m Herr (errorBody_message _ _ Hm) Htruthy).
    by rewrite Htext.
  - intros Hout Hprints. pose proof (errorBody_falsy _ Hout) as Hfalsy.
    rewrite (customBaseQuery_error_status _ _ _ _ _ Herr Hfalsy eq_refl).
    destruct (nullish (getProp error "status")) eqn:Hnull; [done|].
    destruct (statusOf error) as [s|] eqn:Hs.
    + rewrite (statusOf_Some _ _ Hs). by destruct (Hprints s eq_refl) as [text ->].
    + by rewrite (statusOf_None _ Hs) in Hnull.
  - intros out.
    destruct (customBaseQuery_error_outcomes numberToString _ _ _ Herr) as [[text ->] | ->];
      unfold returned; simpl; congruence.
  - destruct (customBaseQuery_error_outcomes numberToString _ _ _ Herr) as [[text ->] | ->];
      repeat constructor. simpl. tauto.
Qed.

Lemma error_result_unchanged_witness :
  returned
    (customBaseQuery string_of_Z
       (answering {[ "error" := error_500_enveloped; "meta" := meta_c1 ]})
       (query deleteCourse "c1"))
  = Some {[ "error" := error_500_enveloped; "meta" := meta_c1 ]}.
Proof.
  apply (proj1 (error_result_unchanged string_of_Z
                  (answering {[ "error" := error_500_enveloped; "meta" := meta_c1 ]})
                  (query deleteCourse "c1") error_500_enveloped
                  ltac:(concrete_result))
           (JStr "boom")).
  - vm_compute. reflexivity.
  - reflexivity.
  - eexists. reflexivity.
Defined.

(** C4, as the claim has it, fails on a message that is present but empty:
    the successful DELETE whose payload is [{ message: "" }] raises no
    notification at all. *)
Lemma success_message_empty_counterexample :
  SuccessResult (answering {[ "data" := empty_message ]} (query deleteCourse "c1"))
    empty_message
  ∧ declaresMethod (query deleteCourse "c1") "DELETE"
  ∧ messageOf empty_message = Some (JStr "")
  ∧ toasts (customBaseQuery string_of_Z (answering {[ "data" := empty_message ]})
              (query deleteCourse "c1")) = []
  ∧ toasts (customBaseQuery string_of_Z (answering {[ "data" := empty_message ]})
              (query deleteCourse "c1")) ≠ [ToastSuccess (JStr "")].
Proof.
  split; [concrete_result|].
  split. { eexists. split; [reflexivity|]. split; [reflexivity|]. discriminate. }
  split; [reflexivity|].
  split; vm_compute; [reflexivity|].
  intros H. discriminate H.
Qed.

Lemma method_guard_mutation args m :
  declaresMethod args m → m ≠ "GET" →
  truthy (argsMethod args) && strictNeqStr (argsMethod args) "GET" = true.
Proof.
  intros (a & -> & Hm & Hne) Hget. simpl. rewrite Hm. simpl.
  apply andb_true_iff. split; apply negb_true_iff; by apply String.eqb_neq.
Qed.

Lemma method_guard_read args :
  isRead args →
  truthy (argsMethod args) && strictNeqStr (argsMethod args) "GET" = false.
Proof.
  intros Hread. destruct args as [u|a]; [done|].
  simpl. destruct (method a) as [m|] eqn:Hm; [|done]. simpl.
  destruct (String.eqb_spec m "") as [->|Hne]; [done|]. simpl.
  rewrite (Hread m); [done|]. by exists a.
Qed.

(** A transport result is an error, a success, or neither (no [data] and no
    truthy [error]). *)
Lemma result_cases (result : obj) :
  (∃ error, ErrorResult result error)
  ∨ (∃ payload, SuccessResult result payload)
  ∨ ((∀ error, ¬ ErrorResult result error) ∧ result !! "data" = None).
Proof.
  destruct (hasProp result "error" && truthy (field result "error")) eqn:Hguard.
  - left. apply andb_true_iff in Hguard as [Hhas Htruthy].
    destruct (result !! "error") as [error|] eqn:Hlook.
    + exists error. split; [done|]. by rewrite (field_Some _ _ _ Hlook) in Htruthy.
    + by rewrite (hasProp_None _ _ Hlook) in Hhas.
  - right.
    assert (∀ error, ¬ ErrorResult result error) as Hnone.
    { intros error Herr. by rewrite (error_guard_true _ _ Herr) in Hguard. }
    destruct (result !! "data") as [payload|] eqn:Hdata.
    + left. by exists payload.
    + by right.
Qed.

(** A result that is neither passes through in silence. *)
Lemma customBaseQuery_neither (numberToString : Z -> string)
    (rawBaseQuery : Args -> obj) args :
  (∀ error, ¬ ErrorResult (rawBaseQuery args) error) →
  rawBaseQuery args !! "data" = None →
  customBaseQuery numberToString rawBaseQuery args = (Some (rawBaseQuery args), []).
Proof.
  intros Hnone Hdata. unfold customBaseQuery.
  by rewrite (error_guard_false _ Hnone), (hasProp_None _ _ Hdata).
Qed.

(** A read raises no success notification, on any result. *)
Lemma read_raises_no_success (numberToString : Z -> string)
    (rawBaseQuery : Args -> obj) (args : Args) :
  isRead args →
  Forall (fun t => ¬ isSuccessToast t)
    (toasts (customBaseQuery numberToString rawBaseQuery args)).
Proof.
  intros Hread.
  destruct (result_cases (rawBaseQuery args))
    as [[error Herr] | [[payload Hok] | [Hnone Hdata]]].
  - destruct (customBaseQuery_error_outcomes numberToString _ _ _ Herr) as [[text ->] | ->];
      repeat constructor. simpl. tauto.
  - rewrite (customBaseQuery_success _ _ _ _ Hok), (method_guard_read _ Hread).
    constructor.
  - rewrite (customBaseQuery_neither _ _ _ Hnone Hdata). constructor.
Qed.

(** C4 (amended): for every successful result of a call whose request
    descriptor declares an HTTP method other than GET, if the success payload
    carries a truthy [message] field (in particular not the empty string)
    then exactly one success notification carrying that exact message is
    emitted, and if it carries none, or a falsy one, nothing is emitted; for
    read calls (GET, or no method declared) no success notification is ever
    emitted, whatever the result holds. *)
Theorem success_notification (numberToString : Z -> string)
    (rawBaseQuery : Args -> obj) args :
  (∀ payload m, SuccessResult (rawBaseQuery args) payload →
     declaresMethod args m → m ≠ "GET" →
     (∀ v, messageOf payload = Some v → truthy v = true →
           toasts (customBaseQuery numberToString rawBaseQuery args) = [ToastSuccess v])
     ∧ ((messageOf payload = None
         ∨ ∃ v, messageOf payload = Some v ∧ truthy v = false) →
        toasts (customBaseQuery numberToString rawBaseQuery args) = []))
  ∧ (isRead args →
     Forall (fun t => ¬ isSuccessToast t)
       (toasts (customBaseQuery numberToString rawBaseQuery args))).
Proof.
  split.
  - intros payload m Hok Hdecl Hget.
    rewrite (customBaseQuery_success _ _ _ _ Hok). unfold toasts. simpl.
    rewrite (method_guard_mutation _ _ Hdecl Hget).
    split.
    + intros v Hv Htruthy. destruct (messageOf_Some _ _ Hv) as [-> ->].
      by rewrite Htruthy.
    + intros [Hnone | (v & Hv & Hfalsy)].
      * by rewrite (messageOf_None _ Hnone).
      * destruct (messageOf_Some _ _ Hv) as [-> _]. by rewrite Hfalsy.
  - apply read_raises_no_success.
Qed.

Lemma success_notification_witness :
  toasts
    (customBaseQuery string_of_Z
       (answering {[ "data" := JObj {[ "message" := JStr "deleted" ]} ]})
       (query deleteCourse "c1"))
  = [ToastSuccess (JStr "deleted")].
Proof.
  apply (proj1 (success_notification string_of_Z
                  (answering {[ "data" := JObj {[ "message" := JStr "deleted" ]} ]})
                  (query deleteCourse "c1"))
           (JObj {[ "message" := JStr "deleted" ]}) "DELETE").
  - concrete_result.
  - eexists. split; [reflexivity|]. split; [reflexivity|]. discriminate.
  - discriminate.
  - vm_compute. reflexivity.
  - reflexivity.
Defined.

(** C10: when the middleware unwraps a success envelope, the returned result
    has the nested value in its [data] field and every other field of the
    transport result (such as [meta]) exactly as the transport gave it,
    present or absent. *)
Theorem unwrap_frame (numberToString : Z -> string)
    (rawBaseQuery : Args -> obj) args payload x :
  SuccessResult (rawBaseQuery args) payload →
  nestedData payload = Some x →
  truthy x = true →
  ∃ out,
    returned (customBaseQuery numberToString rawBaseQuery args) = Some out
    ∧ out !! "data" = Some x
    ∧ ∀ k, k ≠ "data" → out !! k = rawBaseQuery args !! k.
Proof.
  intros Hok Hnested Htruthy. unfold returned.
  rewrite (customBaseQuery_success _ _ _ _ Hok). simpl.
  destruct (nestedData_Some _ _ Hnested) as [-> ->]. rewrite Htruthy. simpl.
  eexists. split; [reflexivity|]. split.
  - apply lookup_insert_eq.
  - intros k Hk. by apply lookup_insert_ne.
Qed.

Lemma unwrap_frame_witness :
  ∃ out,
    returned
      (customBaseQuery string_of_Z
         (answering {[ "data" := JObj {[ "data" := course_c1 ]}; "meta" := meta_c1 ]})
         (query getCourse "c1")) = Some out
    ∧ out !! "meta" = Some meta_c1.
Proof.
  destruct (unwrap_frame string_of_Z
              (answering {[ "data" := JObj {[ "data" := course_c1 ]}; "meta" := meta_c1 ]})
              (query getCourse "c1") (JObj {[ "data" := course_c1 ]}) course_c1)
    as (out & Hout & _ & Hframe).
  - concrete_result.
  - vm_compute. reflexivity.
  - reflexivity.
  - exists out. split; [exact Hout|].
    rewrite (Hframe "meta"); [|discriminate]. vm_compute. reflexivity.
Defined.


(** ** The base URL *)

(** C8: the base URL is the environment-configured value when there is one;
    otherwise, in a browser, the page's protocol, two slashes, the page's
    host name and port 8001; otherwise [http://localhost:8001]. *)
Theorem base_url_fallback_chain :
  (∀ configured window, API_BASE_URL (Some configured) window = configured)
  ∧ (∀ page, API_BASE_URL None (Some page)
             = protocol page +:+ "//" +:+ hostname page +:+ ":8001")
  ∧ API_BASE_URL None None = "http://localhost:8001".
Proof. repeat split. Qed.

Example base_url_in_browser :
  API_BASE_URL None (Some (mkLocation "https:" "learn.example.org"))
  = "https://learn.example.org:8001".
Proof. reflexivity. Qed.


(** ** The endpoint registry against the catalog *)


(** The catalog speaks of every call but a list of courses without a
    category, for which the pattern [courses?category=] has no value. *)
Lemma catalogued_defined (formEncode : string -> string) (e : Endpoint) (a : ArgOf e) :
  catalogued formEncode e a = None → e = getCourses.
Proof. destruct e; simpl in a; try discriminate. done. Qed.

Example getCourses_without_category :
  requestTarget id (query getCourses None) = "courses?"
  ∧ catalogued id getCourses None = None.
Proof. split; reflexivity. Qed.

(** Every tag an endpoint declares is of a type listed in [tagTypes]. *)
Lemma declared_tags_registered (e : Endpoint) (a : ArgOf e) :
  Forall (fun t => tag_type t ∈ tagTypes) (providesTags e a ++ invalidatesTags e a).
Proof.
  destruct e; simpl; repeat constructor; unfold tagTypes; set_solver.
Qed.





Example getCourse_request :
  requested id slashJoin "http://localhost:8001" getCourse "c1"
  = mkOperation "GET" "http://localhost:8001/courses/c1"
      [mkTag "Courses" (Some "c1")] [].
Proof. reflexivity. Qed.


(** ** Tag invalidation *)

Lemma elem_of_refetchSet (t : Tag) (c : Cache) (k : QueryCacheKey) :
  k ∈ refetchSet t c ↔ ∃ e, c !! k = Some e ∧ carries t e = true.
Proof.
  unfold refetchSet. rewrite elem_of_dom. unfold is_Some.
  by setoid_rewrite map_lookup_filter_Some.
Qed.

Lemma carries_markStale (t : Tag) (e : CacheEntry) : carries t (markStale e) = carries t e.
Proof. reflexivity. Qed.

Lemma invalidateTag_lookup (t : Tag) (c : Cache) (k : QueryCacheKey) :
  (invalidateTag t c).1 !! k
  = (fun e => if carries t e then markStale e else e) <$> c !! k.
Proof. unfold invalidateTag. simpl. by rewrite lookup_fmap. Qed.

Lemma refetchSet_invalidateTag (t : Tag) (c : Cache) :
  refetchSet t (invalidateTag t c).1 = refetchSet t c.
Proof.
  apply set_eq. intros k. rewrite !elem_of_refetchSet.
  setoid_rewrite invalidateTag_lookup.
  destruct (c !! k) as [e|] eqn:Hk; simpl.
  - split.
    + intros (e' & [= <-] & Hcarries). exists e. split; [done|].
      destruct (carries t e) eqn:Hc; [done|]. by rewrite Hc in Hcarries.
    + intros (e' & [= <-] & Hcarries). eexists. split; [done|].
      by rewrite Hcarries.
  - split; intros (? & [=] & _).
Qed.

Lemma invalidateTag_idemp (t : Tag) (c : Cache) :
  (invalidateTag t (invalidateTag t c).1).1 = (invalidateTag t c).1.
Proof.
  apply map_eq. intros k. rewrite !invalidateTag_lookup.
  destruct (c !! k) as [e|]; [|done]. cbn -[carries markStale].
  destruct (carries t e) eqn:Hc; by rewrite ?carries_markStale, Hc.
Qed.

Lemma invalidateTag_unsubscribed (t : Tag) (c : Cache) :
  (∀ k e, c !! k = Some e → carries t e = false) →
  invalidateTag t c = (c, ∅).
Proof.
  intros Hnone. unfold invalidateTag. f_equal.
  - apply map_eq. intros k. rewrite lookup_fmap.
    destruct (c !! k) as [e|] eqn:Hk; simpl; [|done].
    by rewrite (Hnone k e Hk).
  - apply set_eq. intros k. rewrite elem_of_refetchSet.
    split; [|set_solver].
    intros (e & Hk & Hcarries). rewrite (Hnone k e Hk) in Hcarries. done.
Qed.

(** C9: tag invalidation is idempotent.  Invalidating a tag that no cached
    query carries changes nothing and refetches nothing; invalidating the
    same tag twice in a row leaves the cache as one invalidation leaves it,
    the second invalidation selects the same entries to refetch as the
    first, and the two together refetch the set that one refetches. *)
Theorem invalidation_idempotent (t : Tag) (c : Cache) :
  ((∀ k e, c !! k = Some e → carries t e = false) →
   invalidateTag t c = (c, ∅))
  ∧ (invalidateTag t (invalidateTag t c).1).1 = (invalidateTag t c).1
  ∧ (invalidateTag t (invalidateTag t c).1).2 = (invalidateTag t c).2
  ∧ invalidate [t; t] c = invalidate [t] c.
Proof.
  split; [apply invalidateTag_unsubscribed|].
  split; [apply invalidateTag_idemp|].
  split; [apply refetchSet_invalidateTag|].
  pose proof (invalidateTag_idemp t c) as Hcache.
  pose proof (refetchSet_invalidateTag t c) as Hset.
  unfold invalidate.
  destruct (invalidateTag t c) as [c1 r1] eqn:Hfirst.
  rewrite ?Hfirst in Hcache, Hset. simpl in Hcache, Hset.
  destruct (invalidateTag t c1) as [c2 r2] eqn:Hsecond.
  rewrite ?Hsecond in Hcache. simpl in Hcache.
  unfold invalidateTag in Hfirst, Hsecond.
  injection Hfirst as _ Hr1. injection Hsecond as Hc2 Hr2.
  rewrite Hcache in Hc2. subst c2.
  f_equal. rewrite <- Hr2, Hset, Hr1.
  rewrite !(right_id_L ∅ (∪)). apply (idemp_L (∪)).
Qed.

Lemma invalidation_idempotent_witness :
  invalidateTag (tagOf "Users") cache_of_courses = (cache_of_courses, ∅).
Proof.
  apply (proj1 (invalidation_idempotent (tagOf "Users") cache_of_courses)).
  intros k e Hk. unfold cache_of_courses in Hk.
  apply lookup_singleton_Some in Hk as [_ <-].
  reflexivity.
Defined.

Example deleteCourse_invalidates_courses :
  (invalidate (invalidatesTags deleteCourse "c1")
     {[ ("getCourses", ["web"]) := mkCacheEntry (JArr [course_c1]) Fresh [tagOf "Courses"];
        ("getCourse", ["c1"]) := mkCacheEntry course_c1 Fresh [mkTag "Courses" (Some "c1")];
        ("getTransactions", ["u1"]) := mkCacheEntry (JArr []) Fresh [] ]}).2
  = {[ ("getCourses", ["web"]); ("getCourse", ["c1"]) ]}.
Proof. vm_compute. reflexivity. Qed.

(** ** The optimistic update *)

(** The recipe replaces the [sections] of the draft and nothing else. *)
Lemma progressRecipe_sections (progressData draft : obj) :
  progressRecipe progressData draft
  = <["sections" := field progressData "sections"]> draft.
Proof.
  unfold progressRecipe, objectAssign, spreadWith.
  by rewrite <- insert_union_l, (idemp_L (∪)).
Qed.

Lemma withValue_own (e : CacheEntry) : withValue (entry_value e) e = e.
Proof. by destruct e. Qed.

Lemma withValue_twice (v w : value) (e : CacheEntry) : withValue v (withValue w e) = withValue v e.
Proof. reflexivity. Qed.

(** What [onQueryStarted] does to a cache holding the progress entry. *)
Lemma onQueryStarted_cached (a : ProgressUpdate) (c : Cache) (e : CacheEntry)
    (progress : obj) :
  c !! ("getUserCourseProgress", [pu_userId a; pu_courseId a]) = Some e →
  entry_value e = JObj progress →
  pending a c
  = <[("getUserCourseProgress", [pu_userId a; pu_courseId a]) :=
        withValue (JObj (<["sections" := field (pu_progressData a) "sections"]> progress)) e]> c
  ∧ settledCache a Fulfilled c = pending a c
  ∧ settledCache a Rejected c = c.
Proof.
  intros Hentry Hvalue.
  unfold pending, settledCache, onQueryStarted, updateQueryData.
  rewrite Hentry, Hvalue, progressRecipe_sections. simpl.
  split; [done|]. split; [done|].
  unfold undo. simpl.
  rewrite alter_insert_eq, withValue_twice, <- Hvalue, withValue_own.
  by apply insert_id.
Qed.

Lemma cachedSections_Some (userId courseId : string) (c : Cache) (s : value) :
  cachedSections userId courseId c = Some s →
  ∃ e progress,
    c !! ("getUserCourseProgress", [userId; courseId]) = Some e
    ∧ entry_value e = JObj progress
    ∧ progress !! "sections" = Some s.
Proof.
  unfold cachedSections.
  destruct (c !! _) as [e|]; simpl; [|discriminate].
  destruct (entry_value e) as [| | | | | |progress] eqn:Hvalue; try discriminate.
  intros Hs. by exists e, progress.
Qed.

(** C3: with a cached progress entry whose sections are [S0], calling
    [updateUserCourseProgress] with sections [S1] makes the cache read [S1]
    while the request is still in flight; if the request is rejected the
    whole cache is again what it was before the call, so the entry reads
    [S0]; if it is fulfilled the cache stays as patched and reads [S1]. *)
Theorem optimistic_update_round_trip (a : ProgressUpdate) (c : Cache) (S0 : value) :
  cachedSections (pu_userId a) (pu_courseId a) c = Some S0 →
  let S1 := field (pu_progressData a) "sections" in
  cachedSections (pu_userId a) (pu_courseId a) (pending a c) = Some S1
  ∧ settledCache a Rejected c = c
  ∧ cachedSections (pu_userId a) (pu_courseId a) (settledCache a Rejected c) = Some S0
  ∧ settledCache a Fulfilled c = pending a c
  ∧ cachedSections (pu_userId a) (pu_courseId a) (settledCache a Fulfilled c) = Some S1.
Proof.
  intros Hcached S1.
  destruct (cachedSections_Some _ _ _ _ Hcached) as (e & progress & Hentry & Hvalue & _).
  destruct (onQueryStarted_cached a c e progress Hentry Hvalue)
    as (Hpending & Hfulfilled & Hrejected).
  assert (cachedSections (pu_userId a) (pu_courseId a) (pending a c) = Some S1)
    as Hreads.
  { rewrite Hpending. unfold cachedSections.
    rewrite lookup_insert_eq. simpl. apply lookup_insert_eq. }
  rewrite Hrejected, Hfulfilled. done.
Qed.

Lemma optimistic_update_round_trip_witness :
  cachedSections "u1" "c1" (pending progress_update cache_of_progress)
  = Some (JArr [JStr "s1"; JStr "s2"])
  ∧ settledCache progress_update Rejected cache_of_progress = cache_of_progress.
Proof.
  destruct (optimistic_update_round_trip progress_update cache_of_progress (JArr [JStr "s1"]))
    as (Hpending & Hrevert & _).
  - vm_compute. reflexivity.
  - split; [exact Hpending | exact Hrevert].
Defined.

(** C7: when the cache holds no entry for the (userId, courseId) key of
    [getUserCourseProgress], the optimistic patch is a no-op: the cache is
    unchanged while the request is in flight and after it settles, either
    way, and the whole call comes down to the invalidation of
    [UserCourseProgress] on the untouched cache. *)
Theorem optimistic_update_without_entry (a : ProgressUpdate) (c : Cache) :
  c !! ("getUserCourseProgress", [pu_userId a; pu_courseId a]) = None →
  pending a c = c
  ∧ ∀ settled,
      settledCache a settled c = c
      ∧ runUpdateUserCourseProgress a settled c
        = invalidate [tagOf "UserCourseProgress"] c.
Proof.
  intros Hnone.
  assert (∀ settled, settledCache a settled c = c) as Hsettled.
  { intros settled.
    unfold settledCache, onQueryStarted, updateQueryData. rewrite Hnone.
    by destruct settled. }
  split.
  - unfold pending, onQueryStarted, updateQueryData. by rewrite Hnone.
  - intros settled. split; [apply Hsettled|].
    unfold runUpdateUserCourseProgress. by rewrite Hsettled.
Qed.

Lemma optimistic_update_without_entry_witness :
  pending progress_update cache_of_courses = cache_of_courses.
Proof.
  apply (optimistic_update_without_entry progress_update cache_of_courses).
  vm_compute. reflexivity.
Defined.


(** * Further properties of the code *)

(** ** The response middleware, on every transport result *)

Lemma truthy_getProp_nested payload :
  truthy payload && truthy (getProp payload "data") = true →
  ∃ x, nestedData payload = Some x ∧ truthy x = true ∧ getProp payload "data" = x.
Proof.
  intros Hguard. apply andb_true_iff in Hguard as [_ Htruthy].
  destruct payload as [| | | | | |envelope]; try discriminate.
  simpl in *. destruct (envelope !! "data") as [x|]; [|discriminate].
  by exists x.
Qed.

(** X1: whatever the transport resolves to and whatever the descriptor, one
    call raises at most one notification; in particular never an error and a
    success notification together. *)
Theorem at_most_one_notification (numberToString : Z -> string)
    (rawBaseQuery : Args -> obj) (args : Args) :
  length (toasts (customBaseQuery numberToString rawBaseQuery args)) ≤ 1.
Proof.
  destruct (result_cases (rawBaseQuery args))
    as [[error Herr] | [[payload Hok] | [Hnone Hdata]]].
  - destruct (customBaseQuery_error_outcomes numberToString _ _ _ Herr) as [[text ->] | ->];
      simpl; lia.
  - rewrite (customBaseQuery_success _ _ _ _ Hok). unfold toasts. simpl.
    repeat case_match; simpl; lia.
  - rewrite (customBaseQuery_neither _ _ _ Hnone Hdata). simpl. lia.
Qed.

(** X2: an error notification is raised exactly when the transport result
    carries a truthy [error] and the call returns; a result whose [error] is
    absent or falsy ([undefined], [null], ...) is never reported as an
    error, and an error result is left unreported only when the call throws
    (its message cannot be converted to a string). *)
Theorem error_toast_iff_error (numberToString : Z -> string)
    (rawBaseQuery : Args -> obj) (args : Args) :
  (∃ msg, ToastError msg ∈ toasts (customBaseQuery numberToString rawBaseQuery args))
  ↔ (∃ error, ErrorResult (rawBaseQuery args) error)
    ∧ is_Some (returned (customBaseQuery numberToString rawBaseQuery args)).
Proof.
  split.
  - intros [msg Hin].
    destruct (result_cases (rawBaseQuery args))
      as [[error Herr] | [[payload Hok] | [Hnone Hdata]]].
    + split; [by exists error|].
      destruct (customBaseQuery_error_outcomes numberToString _ _ _ Herr)
        as [[text Hcall] | Hcall]; rewrite Hcall in *.
      * by eexists.
      * by apply elem_of_nil in Hin.
    + rewrite (customBaseQuery_success _ _ _ _ Hok) in Hin. unfold toasts in Hin.
      simpl in Hin. exfalso.
      repeat case_match;
        repeat (apply elem_of_cons in Hin as [Hin|Hin]; [discriminate Hin|]);
        by apply elem_of_nil in Hin.
    + rewrite (customBaseQuery_neither _ _ _ Hnone Hdata) in Hin.
      by apply elem_of_nil in Hin.
  - intros [[error Herr] [out Hout]].
    destruct (customBaseQuery_error_outcomes numberToString _ _ _ Herr)
      as [[text Hcall] | Hcall]; rewrite Hcall in *.
    + eexists. unfold toasts. simpl. apply list_elem_of_here.
    + discriminate Hout.
Qed.

(** How the returned result relates to the transport's. *)
Lemma customBaseQuery_returned (numberToString : Z -> string)
    (rawBaseQuery : Args -> obj) (args : Args) :
  returned (customBaseQuery numberToString rawBaseQuery args) = Some (rawBaseQuery args)
  ∨ (∃ payload x,
       SuccessResult (rawBaseQuery args) payload
       ∧ nestedData payload = Some x
       ∧ truthy x = true
       ∧ returned (customBaseQuery numberToString rawBaseQuery args)
         = Some (<["data" := x]> (rawBaseQuery args)))
  ∨ ((∃ error, ErrorResult (rawBaseQuery args) error)
     ∧ customBaseQuery numberToString rawBaseQuery args = (None, [])).
Proof.
  destruct (result_cases (rawBaseQuery args))
    as [[error Herr] | [[payload Hok] | [Hnone Hdata]]].
  - destruct (customBaseQuery_error_outcomes numberToString _ _ _ Herr)
      as [[text Hcall] | Hcall]; rewrite Hcall.
    + by left.
    + right. right. split; [by exists error|done].
  - rewrite (customBaseQuery_success _ _ _ _ Hok). unfold returned. simpl.
    destruct (truthy payload && truthy (getProp payload "data")) eqn:Hguard.
    + right. left.
      destruct (truthy_getProp_nested _ Hguard) as (x & Hx & Htruthy & ->).
      by exists payload, x.
    + by left.
  - left. by rewrite (customBaseQuery_neither _ _ _ Hnone Hdata).
Qed.

(** X3: the middleware never adds a field to the transport result and never
    drops one: whatever object the call returns has exactly the keys of the
    transport's, on every path. *)
Theorem result_keys_preserved (numberToString : Z -> string)
    (rawBaseQuery : Args -> obj) (args : Args) (out : obj) :
  returned (customBaseQuery numberToString rawBaseQuery args) = Some out →
  dom out = dom (rawBaseQuery args).
Proof.
  intros Hout.
  destruct (customBaseQuery_returned numberToString rawBaseQuery args)
    as [Hsame | [(payload & x & [_ Hdata] & _ & _ & Hunwrap) | [_ Hthrow]]].
  - congruence.
  - rewrite Hunwrap in Hout. injection Hout as <-.
    rewrite dom_insert_L.
    apply subseteq_union_1_L, singleton_subseteq_l, elem_of_dom. eauto.
  - rewrite Hthrow in Hout. discriminate Hout.
Qed.

Lemma result_keys_preserved_witness :
  dom (<["data" := course_c1]>
         (answering {[ "data" := JObj {[ "data" := course_c1 ]}; "meta" := meta_c1 ]}
            (query getCourse "c1")))
  = dom (answering {[ "data" := JObj {[ "data" := course_c1 ]}; "meta" := meta_c1 ]}
           (query getCourse "c1")).
Proof.
  apply (result_keys_preserved string_of_Z
           (answering {[ "data" := JObj {[ "data" := course_c1 ]}; "meta" := meta_c1 ]})
           (query getCourse "c1")).
  vm_compute. reflexivity.
Defined.

(** X4: the only change the middleware ever makes to a transport result is
    the one-level unwrap: a returned result that is not the transport's own
    comes from a success whose payload nests a truthy [data], and is the
    transport's with [data] replaced by that nested value.  A call that does
    not return was given an error result. *)
Theorem result_changed_only_by_unwrap (numberToString : Z -> string)
    (rawBaseQuery : Args -> obj) (args : Args) :
  (∀ out,
     returned (customBaseQuery numberToString rawBaseQuery args) = Some out →
     out ≠ rawBaseQuery args →
     ∃ payload x,
       SuccessResult (rawBaseQuery args) payload
       ∧ nestedData payload = Some x
       ∧ truthy x = true
       ∧ out = <["data" := x]> (rawBaseQuery args))
  ∧ (returned (customBaseQuery numberToString rawBaseQuery args) = None →
     ∃ error, ErrorResult (rawBaseQuery args) error).
Proof.
  destruct (customBaseQuery_returned numberToString rawBaseQuery args)
    as [Hsame | [(payload & x & Hok & Hx & Htruthy & Hunwrap) | [Herr Hthrow]]].
  - split; [|congruence]. intros out Hout Hchanged. congruence.
  - split; [|congruence]. intros out Hout _.
    exists payload, x. repeat split; try done; try apply Hok. congruence.
  - split; [|done]. intros out Hout. rewrite Hthrow in Hout. discriminate Hout.
Qed.

Lemma result_changed_only_by_unwrap_witness :
  ∃ payload x,
    SuccessResult (answering {[ "data" := JObj {[ "data" := course_c1 ]} ]} (query getCourse "c1"))
      payload
    ∧ nestedData payload = Some x
    ∧ truthy x = true
    ∧ ({[ "data" := course_c1 ]} : obj)
      = <["data" := x]> (answering {[ "data" := JObj {[ "data" := course_c1 ]} ]}
                           (query getCourse "c1")).
Proof.
  apply (proj1 (result_changed_only_by_unwrap string_of_Z
                  (answering {[ "data" := JObj {[ "data" := course_c1 ]} ]})
                  (query getCourse "c1"))).
  - vm_compute. reflexivity.
  - intros Hsame. apply (f_equal (fun o : obj => o !! "data")) in Hsame.
    vm_compute in Hsame. discriminate Hsame.
Defined.

Lemma string_of_Z_nonempty (z : Z) : string_of_Z z ≠ "".
Proof.
  unfold string_of_Z, NilZero.string_of_int.
  destruct (Z.to_int z) as [d|d]; [|discriminate].
  destruct d; discriminate.
Qed.

(** What a truthy value prints as is not empty, unless it is an array. *)
Lemma toString_truthy_nonempty (numberToString : Z -> string) (v : value) (text : string) :
  (∀ z, numberToString z ≠ "") →
  truthy v = true → (∀ items, v ≠ JArr items) →
  toString numberToString v = Some text → text ≠ "".
Proof.
  intros Hdigits Htruthy Harr.
  destruct v as [| |b|z|s|items|fields]; simpl in *; try discriminate.
  - destruct b; [|discriminate]. by intros [= <-].
  - intros [= <-]. apply Hdigits.
  - intros [= <-]. by apply truthy_JStr.
  - by destruct (Harr items).
  - destruct (hasProp fields "toString"); [discriminate|]. by intros [= <-].
Qed.

(** X5: the text of an error notification is never the bare prefix: after
    [Error: ] comes a non-empty message, provided the server's [message] is
    not an array (an empty array is truthy and prints as the empty string),
    numbers never printing as nothing. *)
Theorem error_notification_not_blank (numberToString : Z -> string)
    (rawBaseQuery : Args -> obj) args error :
  (∀ z, numberToString z ≠ "") →
  ErrorResult (rawBaseQuery args) error →
  (∀ items, messageOf (errorBody error) ≠ Some (JArr items)) →
  Forall (fun t => ∃ chosen, t = ToastError ("Error: " +:+ chosen) ∧ chosen ≠ "")
    (toasts (customBaseQuery numberToString rawBaseQuery args)).
Proof.
  intros Hdigits Herr Harr.
  destruct (truthy (getProp (coalesce (errorBody error) (JObj ∅)) "message")) eqn:Hm.
  - rewrite (customBaseQuery_error_message _ _ _ _ _ Herr eq_refl Hm).
    destruct (toString numberToString _) as [text|] eqn:Htext; [|constructor].
    repeat constructor. exists text. split; [done|].
    apply (toString_truthy_nonempty numberToString _ _ Hdigits Hm); [|done].
    intros items Hitems. apply (Harr items).
    destruct (messageOf (errorBody error)) as [m|] eqn:Hmessage.
    + by rewrite (errorBody_message _ _ Hmessage) in Hitems; subst.
    + by rewrite (errorBody_no_message _ Hmessage) in Hitems.
  - rewrite (customBaseQuery_error_status _ _ _ _ _ Herr Hm eq_refl).
    destruct (nullish _).
    { repeat constructor. by exists "An error occurred". }
    destruct (toString numberToString _) as [text|]; [|constructor].
    repeat constructor. eexists. split; [done|].
    by destruct (String.eqb_spec text "").
Qed.

Lemma error_notification_not_blank_witness :
  Forall (fun t => ∃ chosen, t = ToastError ("Error: " +:+ chosen) ∧ chosen ≠ "")
    (toasts (customBaseQuery string_of_Z (answering {[ "error" := error_503 ]})
               (query getTransactions "u1"))).
Proof.
  apply (error_notification_not_blank string_of_Z (answering {[ "error" := error_503 ]})
           (query getTransactions "u1") error_503).
  - apply string_of_Z_nonempty.
  - concrete_result.
  - intros items H. vm_compute in H. discriminate H.
Defined.

Example error_notification_blank_for_array :
  toasts (customBaseQuery string_of_Z
            (answering {[ "error" := JObj {[ "status" := JNum 400;
                                             "data" := JObj {[ "message" := JArr [] ]} ]} ]})
            (query getTransactions "u1"))
  = [ToastError "Error: "].
Proof. vm_compute. reflexivity. Qed.

(** X6: on a successful mutation whose envelope holds both a truthy
    [message] and a truthy [data], both steps run: exactly the message is
    notified, read from the envelope before it is stripped, and the call
    returns the transport result with the nested [data] in place of the
    envelope. *)
Theorem message_then_unwrap (numberToString : Z -> string)
    (rawBaseQuery : Args -> obj) args payload m v x :
  SuccessResult (rawBaseQuery args) payload →
  declaresMethod args m → m ≠ "GET" →
  messageOf payload = Some v → truthy v = true →
  nestedData payload = Some x → truthy x = true →
  customBaseQuery numberToString rawBaseQuery args
  = (Some (<["data" := x]> (rawBaseQuery args)), [ToastSuccess v]).
Proof.
  intros Hok Hdecl Hget Hv Hvt Hx Hxt.
  rewrite (customBaseQuery_success _ _ _ _ Hok).
  rewrite (method_guard_mutation _ _ Hdecl Hget).
  destruct (messageOf_Some _ _ Hv) as [-> ->].
  destruct (nestedData_Some _ _ Hx) as [-> ->].
  by rewrite Hvt, Hxt.
Qed.

Lemma message_then_unwrap_witness :
  customBaseQuery string_of_Z (answering {[ "data" := saved_envelope ]}) (query createCourse ∅)
  = (Some (<["data" := course_c1]>
             (answering {[ "data" := saved_envelope ]} (query createCourse ∅))),
     [ToastSuccess (JStr "saved")]).
Proof.
  apply (message_then_unwrap string_of_Z (answering {[ "data" := saved_envelope ]})
           (query createCourse ∅) saved_envelope "POST").
  - concrete_result.
  - eexists. split; [reflexivity|]. split; [reflexivity|]. discriminate.
  - discriminate.
  - vm_compute. reflexivity.
  - reflexivity.
  - vm_compute. reflexivity.
  - reflexivity.
Defined.

(** ** The registry and the middleware together *)

Lemma query_is_read (e : Endpoint) (a : ArgOf e) :
  endpointKind e = Query → isRead (query e a).
Proof.
  intros Hkind m (f & Hargs & Hmethod & _).
  destruct e; try discriminate Hkind; simpl in Hargs;
    inversion Hargs; subst f; discriminate Hmethod.
Qed.

Lemma mutation_declares_method (e : Endpoint) (a : ArgOf e) :
  endpointKind e = Mutation →
  ∃ m, declaresMethod (query e a) m ∧ m ≠ "GET".
Proof.
  intros Hkind.
  destruct e; try discriminate Hkind;
    (eexists; split; [eexists; split; [reflexivity|]; split; [reflexivity|]|]);
    discriminate.
Qed.

(** X7: no endpoint declared with [build.query] ever raises a success
    notification, whatever its argument and whatever the transport resolves
    to (even a payload with a [message]): none of them names a method. *)
Theorem queries_never_notify_success (numberToString : Z -> string)
    (rawBaseQuery : Args -> obj) (e : Endpoint) (a : ArgOf e) :
  endpointKind e = Query →
  Forall (fun t => ¬ isSuccessToast t)
    (toasts (customBaseQuery numberToString rawBaseQuery (query e a))).
Proof.
  intros Hkind. apply read_raises_no_success. by apply query_is_read.
Qed.

Lemma queries_never_notify_success_witness :
  Forall (fun t => ¬ isSuccessToast t)
    (toasts (customBaseQuery string_of_Z (answering {[ "data" := saved_envelope ]})
               (query getCourses (Some "web")))).
Proof.
  apply (queries_never_notify_success string_of_Z
           (answering {[ "data" := saved_envelope ]}) getCourses (Some "web")).
  reflexivity.
Defined.

(** X8: every endpoint declared with [build.mutation] names a method other
    than GET, so that for each of them, with any argument, a successful
    result whose payload carries a truthy [message] raises exactly one
    success notification, carrying that message. *)
Theorem mutations_notify_success (numberToString : Z -> string)
    (rawBaseQuery : Args -> obj) (e : Endpoint) (a : ArgOf e) (payload v : value) :
  endpointKind e = Mutation →
  SuccessResult (rawBaseQuery (query e a)) payload →
  messageOf payload = Some v → truthy v = true →
  toasts (customBaseQuery numberToString rawBaseQuery (query e a)) = [ToastSuccess v].
Proof.
  intros Hkind Hok Hv Htruthy.
  destruct (mutation_declares_method e a Hkind) as (m & Hdecl & Hget).
  rewrite (customBaseQuery_success _ _ _ _ Hok), (method_guard_mutation _ _ Hdecl Hget).
  destruct (messageOf_Some _ _ Hv) as [-> ->].
  unfold toasts. simpl. by rewrite Htruthy.
Qed.

Lemma mutations_notify_success_witness :
  toasts (customBaseQuery string_of_Z (answering {[ "data" := saved_envelope ]})
            (query updateCourse (mkCourseUpdate "c1" JNull)))
  = [ToastSuccess (JStr "saved")].
Proof.
  apply (mutations_notify_success string_of_Z (answering {[ "data" := saved_envelope ]})
           updateCourse (mkCourseUpdate "c1" JNull) saved_envelope).
  - reflexivity.
  - concrete_result.
  - vm_compute. reflexivity.
  - reflexivity.
Defined.


(** ** The registry *)

(** X9: in the registry only queries provide tags and only mutations
    invalidate tags: a mutation provides none, a query invalidates none. *)
Theorem tags_follow_kind (e : Endpoint) (a : ArgOf e) :
  (endpointKind e = Mutation → providesTags e a = [])
  ∧ (endpointKind e = Query → invalidatesTags e a = []).
Proof. destruct e; split; intros Hkind; try discriminate Hkind; reflexivity. Qed.

Lemma tags_follow_kind_witness :
  providesTags deleteCourse "c1" = [].
Proof. apply (tags_follow_kind deleteCourse "c1"). reflexivity. Defined.

(** X10: no endpoint provides a tag of type [Users], for any argument; the
    tag [updateUser] invalidates therefore reaches no tag that any query of
    the registry provides. *)
Theorem users_tag_never_provided (e : Endpoint) (a : ArgOf e) (u : UserUpdate) :
  Forall (fun t => tag_type t ≠ "Users") (providesTags e a)
  ∧ invalidationReaches (invalidatesTags updateUser u) (providesTags e a) = false.
Proof.
  destruct e; simpl; split; repeat constructor; simpl; discriminate.
Qed.

Lemma noSlash_head (c : ascii) (s : string) :
  noSlash (String c s) = true → c ≠ "/"%char ∧ noSlash s = true.
Proof.
  simpl. intros H. apply andb_true_iff in H as [Hc Hs]. split; [|done].
  apply negb_true_iff in Hc. by apply Ascii.eqb_neq.
Qed.

(** A slash-free segment followed by a slash is read back unambiguously. *)
Lemma segment_inj (u u' rest rest' : string) :
  noSlash u = true → noSlash u' = true →
  u +:+ String "/" rest = u' +:+ String "/" rest' →
  u = u' ∧ rest = rest'.
Proof.
  revert u'. induction u as [|c u IH]; intros [|c' u'] Hu Hu' Heq.
  - by injection Heq as ->.
  - injection Heq as Hc _. apply noSlash_head in Hu' as [Hne _]. congruence.
  - injection Heq as Hc _. apply noSlash_head in Hu as [Hne _]. congruence.
  - injection Heq as -> Heq.
    apply noSlash_head in Hu as [_ Hu]. apply noSlash_head in Hu' as [_ Hu'].
    destruct (IH u' Hu Hu' Heq) as [-> ->]. done.
Qed.

(** X11: path parameters are put into the url as they are.  As long as the
    user ids hold no slash, the url of [getUserCourseProgress] determines its
    (userId, courseId) pair: two calls with the same url have the same
    arguments. *)
Theorem progress_url_determines_key (a b : ProgressKey) :
  noSlash (pk_userId a) = true →
  noSlash (pk_userId b) = true →
  query getUserCourseProgress a = query getUserCourseProgress b →
  a = b.
Proof.
  intros Ha Hb Heq.
  assert ("users/course-progress/" +:+ pk_userId a +:+ "/courses/" +:+ pk_courseId a
          = "users/course-progress/" +:+ pk_userId b +:+ "/courses/" +:+ pk_courseId b)
    as Hurl by (simpl in Heq; congruence).
  clear Heq. rename Hurl into Heq.
  apply (inj (String.app "users/course-progress/")) in Heq.
  change (pk_userId a +:+ String "/" ("courses/" +:+ pk_courseId a)
          = pk_userId b +:+ String "/" ("courses/" +:+ pk_courseId b)) in Heq.
  destruct (segment_inj _ _ _ _ Ha Hb Heq) as [Huser Hcourse].
  apply (inj (String.app "courses/")) in Hcourse.
  destruct a, b. simpl in *. by subst.
Qed.

Lemma progress_url_determines_key_witness :
  mkProgressKey "u1" "c1" = mkProgressKey "u1" "c1".
Proof.
  apply (progress_url_determines_key (mkProgressKey "u1" "c1") (mkProgressKey "u1" "c1"));
    reflexivity.
Defined.

(** Without that proviso two different pairs can share a url. *)
Example progress_url_collision :
  query getUserCourseProgress (mkProgressKey "a/courses/b" "c")
  = query getUserCourseProgress (mkProgressKey "a" "b/courses/c")
  ∧ mkProgressKey "a/courses/b" "c" ≠ mkProgressKey "a" "b/courses/c".
Proof. split; [reflexivity | discriminate]. Qed.

(** X12: [updateCourse] invalidates exactly the tag that [getCourse]
    provides for the same course id.  With invalidation reaching a provided
    tag as in section 4.3 of the specification (same type, and same id when
    the invalidated tag names one), an update of a course reaches the cached
    [getCourse] of that course and of no other, and does not reach the
    course list of [getCourses], while [deleteCourse] and [createCourse]
    reach both. *)
Theorem updateCourse_reaches_its_course (a : CourseUpdate) (id : string)
    (category : option string) (body : obj) :
  invalidatesTags updateCourse a = providesTags getCourse (cu_courseId a)
  ∧ (invalidationReaches (invalidatesTags updateCourse a) (providesTags getCourse id) = true
     ↔ id = cu_courseId a)
  ∧ invalidationReaches (invalidatesTags updateCourse a) (providesTags getCourses category)
    = false
  ∧ invalidationReaches (invalidatesTags deleteCourse id) (providesTags getCourse id) = true
  ∧ invalidationReaches (invalidatesTags deleteCourse id) (providesTags getCourses category)
    = true
  ∧ invalidationReaches (invalidatesTags createCourse body) (providesTags getCourse id) = true
  ∧ invalidationReaches (invalidatesTags createCourse body) (providesTags getCourses category)
    = true.
Proof.
  split; [reflexivity|]. split; [|repeat split].
  unfold invalidationReaches, tagReaches. simpl.
  rewrite !orb_false_r. rewrite bool_decide_eq_true.
  split; congruence.
Qed.


(** X13: [updateUser] sends the user id in the url only: for the object the
    hook is called with, whose [userId] prints as [id] (a string, by the
    type of the argument, prints as itself), the url is [users/clerk/]
    followed by [id], and the body is that object without the [userId]
    property, every other property as it was. *)
Theorem updateUser_splits_argument (numberToString : Z -> string) (user : obj)
    (id : string) :
  toString numberToString (field user "userId") = Some id →
  ∃ u,
    destructureUser numberToString user = Some u
    ∧ urlOf (query updateUser u) = "users/clerk/" +:+ id
    ∧ ∃ sent,
        bodyOf (query updateUser u) = JObj sent
        ∧ sent !! "userId" = None
        ∧ ∀ k, k ≠ "userId" → sent !! k = user !! k.
Proof.
  intros Hid. unfold destructureUser. rewrite Hid. simpl.
  eexists. split; [reflexivity|]. split; [reflexivity|].
  exists (delete "userId" user). split; [reflexivity|]. split.
  - apply lookup_delete_eq.
  - intros k Hk. by apply lookup_delete_ne.
Qed.

Lemma updateUser_splits_argument_witness :
  ∃ u,
    destructureUser string_of_Z user_u1 = Some u
    ∧ urlOf (query updateUser u) = "users/clerk/" +:+ "u1"
    ∧ ∃ sent,
        bodyOf (query updateUser u) = JObj sent
        ∧ sent !! "userId" = None
        ∧ ∀ k, k ≠ "userId" → sent !! k = user_u1 !! k.
Proof.
  apply (updateUser_splits_argument string_of_Z user_u1 "u1").
  vm_compute. reflexivity.
Defined.

Example updateUser_u1 :
  query updateUser <$> destructureUser string_of_Z user_u1
  = Some (fetchArgs "users/clerk/u1" "PUT" (Some (JObj {[ "firstName" := JStr "Ada" ]}))).
Proof. vm_compute. reflexivity. Qed.

(** ** The authorization header *)

Lemma prepareHeaders_token (numberToString : Z -> string)
    (window : option BrowserWindow) (headers : Headers) :
  prepareHeaders numberToString window headers
  = match sessionToken window with
    | Some token =>
        if truthy token
        then text ← toString numberToString token;
             headersSet "Authorization" ("Bearer " +:+ text) headers
        else Some headers
    | None => Some headers
    end.
Proof.
  destruct window as [[clerk]|]; [|reflexivity].
  destruct clerk as [[s]|]; [|reflexivity].
  destruct s as [[token]|]; reflexivity.
Qed.

(** X14: without a usable token the request proceeds unauthenticated and
    untouched: outside a browser, without the Clerk global, without a
    session, or with a token that is [null] or the empty string,
    [prepareHeaders] returns the headers exactly as given (an authorization
    header already there is neither replaced nor removed). *)
Theorem prepareHeaders_without_token (numberToString : Z -> string)
    (window : option BrowserWindow) (headers : Headers) :
  (sessionToken window = None
   ∨ ∃ token, sessionToken window = Some token ∧ truthy token = false) →
  prepareHeaders numberToString window headers = Some headers.
Proof.
  intros Hnone. rewrite prepareHeaders_token.
  destruct Hnone as [-> | (token & -> & ->)]; reflexivity.
Qed.

Lemma prepareHeaders_without_token_witness :
  prepareHeaders string_of_Z signed_out {[ "accept" := "application/json" ]}
  = Some {[ "accept" := "application/json" ]}.
Proof.
  apply (prepareHeaders_without_token string_of_Z signed_out
           {[ "accept" := "application/json" ]}).
  left. reflexivity.
Defined.

Lemma visible_not_whitespace (c : ascii) :
  (let n := nat_of_ascii c in (33 <=? n)%nat && (n <=? 126)%nat) = true →
  isHttpWhitespace c = false.
Proof.
  destruct c as [[] [] [] [] [] [] [] []]; try reflexivity; discriminate.
Qed.

Lemma trimEnd_visible (text : string) :
  isVisible text = true → trimEnd text = text.
Proof.
  induction text as [|c rest IH]; [reflexivity|].
  intros Hvisible. apply andb_true_iff in Hvisible as [Hc Hrest].
  simpl. rewrite (IH Hrest), (visible_not_whitespace c Hc).
  by destruct rest.
Qed.

Lemma trimEnd_before_visible (before text : string) :
  text ≠ "" → isVisible text = true →
  trimEnd (before +:+ text) = before +:+ text.
Proof.
  intros Hne Hvisible.
  induction before as [|c before IH]; [by apply trimEnd_visible|].
  change (trimEnd (String c (before +:+ text)) = String c (before +:+ text)).
  simpl. rewrite IH.
  destruct (before +:+ text) eqn:Hrest; [|reflexivity].
  destruct before; [|discriminate Hrest]. by destruct Hne.
Qed.

(** A bearer value made of a visible token is already normalized. *)
Lemma normalizeValue_bearer (text : string) :
  text ≠ "" → isVisible text = true →
  normalizeValue ("Bearer " +:+ text) = "Bearer " +:+ text.
Proof.
  intros Hne Hvisible. unfold normalizeValue.
  by rewrite (trimEnd_before_visible "Bearer " text Hne Hvisible).
Qed.

(** X15: with a truthy token that prints as [text], and when the bearer value
    is a valid header value (it holds no NUL, line feed or carriage return
    once the blanks at its ends are stripped), [prepareHeaders] sets the
    authorization header to the normalized [Bearer text], replacing whatever
    value it had, and leaves every other header as it was; preparing the
    headers a second time changes nothing more.  For a token of visible
    characters the header is [Bearer ] followed by the token, as it is. *)
Theorem prepareHeaders_with_token (numberToString : Z -> string)
    (window : option BrowserWindow) (headers : Headers) (token : value) (text : string) :
  sessionToken window = Some token →
  truthy token = true →
  toString numberToString token = Some text →
  isHeaderValue (normalizeValue ("Bearer " +:+ text)) = true →
  ∃ out,
    prepareHeaders numberToString window headers = Some out
    ∧ out !! "authorization" = Some (normalizeValue ("Bearer " +:+ text))
    ∧ (∀ name, name ≠ "authorization" → out !! name = headers !! name)
    ∧ prepareHeaders numberToString window out = Some out
    ∧ (text ≠ "" → isVisible text = true →
       out !! "authorization" = Some ("Bearer " +:+ text)).
Proof.
  intros Htoken Htruthy Htext Hvalid.
  assert (∀ h, prepareHeaders numberToString window h
               = Some (<["authorization" := normalizeValue ("Bearer " +:+ text)]> h))
    as Hset.
  { intros h. rewrite prepareHeaders_token, Htoken, Htruthy, Htext. simpl.
    unfold headersSet. by rewrite Hvalid. }
  eexists. split; [apply Hset|].
  split; [apply lookup_insert_eq|].
  split; [intros name Hname; by apply lookup_insert_ne|].
  split; [by rewrite Hset, insert_insert_eq|].
  intros Hne Hvisible. rewrite lookup_insert_eq.
  by rewrite (normalizeValue_bearer text Hne Hvisible).
Qed.

Lemma prepareHeaders_with_token_witness :
  ∃ out,
    prepareHeaders string_of_Z signed_in {[ "authorization" := "Basic old" ]} = Some out
    ∧ out !! "authorization" = Some "Bearer tok_1".
Proof.
  destruct (prepareHeaders_with_token string_of_Z signed_in
              {[ "authorization" := "Basic old" ]} (JStr "tok_1") "tok_1")
    as (out & Hout & _ & _ & _ & Hvisible); try reflexivity.
  exists out. split; [exact Hout|].
  apply Hvisible; [discriminate | reflexivity].
Defined.

(** The blank at the end of a token is not sent. *)
Example prepareHeaders_trims :
  prepareHeaders string_of_Z signed_in_blank ∅ = Some {[ "authorization" := "Bearer tok" ]}.
Proof. vm_compute. reflexivity. Qed.

(** A token with a line feed inside makes [headers.set] throw. *)
Example prepareHeaders_throws :
  prepareHeaders string_of_Z
    (Some (mkBrowserWindow (Some (mkClerkGlobal (Some (mkClerkSession
       (JStr ("to" +:+ String (ascii_of_nat 10) "k"))))))))
    ∅
  = None.
Proof. vm_compute. reflexivity. Qed.


(** ** The optimistic update, on every cache *)

(** X16: the recipe of the optimistic update sets [sections] to the
    [sections] of the progress data (to [undefined] when the data has none)
    and leaves every other property of the cached progress as it was; applied
    again with other data, the later sections win, and the same data twice is
    the same as once. *)
Theorem progressRecipe_frame (progressData later draft : obj) :
  progressRecipe progressData draft !! "sections" = Some (field progressData "sections")
  ∧ (∀ k, k ≠ "sections" → progressRecipe progressData draft !! k = draft !! k)
  ∧ progressRecipe later (progressRecipe progressData draft) = progressRecipe later draft
  ∧ progressRecipe progressData (progressRecipe progressData draft)
    = progressRecipe progressData draft.
Proof.
  rewrite !progressRecipe_sections.
  split; [apply lookup_insert_eq|]. split.
  - intros k Hk. by apply lookup_insert_ne.
  - split; apply insert_insert_eq.
Qed.

Lemma onQueryStarted_cases (a : ProgressUpdate) (c : Cache) :
  (pending a c = c ∧ ∀ settled, settledCache a settled c = c)
  ∨ ∃ e progress,
      c !! progressKey a = Some e
      ∧ entry_value e = JObj progress
      ∧ pending a c
        = <[progressKey a :=
              withValue (JObj (<["sections" := field (pu_progressData a) "sections"]> progress)) e]> c
      ∧ settledCache a Fulfilled c = pending a c
      ∧ settledCache a Rejected c = c.
Proof.
  destruct (c !! progressKey a) as [e|] eqn:Hentry.
  - destruct (entry_value e) as [| | | | | |progress] eqn:Hvalue;
      try (left; unfold pending, settledCache, onQueryStarted, updateQueryData;
           unfold progressKey in Hentry; rewrite Hentry, Hvalue;
           split; [reflexivity | by intros []]).
    right. exists e, progress.
    destruct (onQueryStarted_cached a c e progress Hentry Hvalue) as (? & ? & ?).
    done.
  - left. unfold pending, settledCache, onQueryStarted, updateQueryData.
    unfold progressKey in Hentry. rewrite Hentry.
    split; [reflexivity | by intros []].
Qed.

(** X17: the optimistic patch touches one cache entry only, the
    [getUserCourseProgress] entry of the (userId, courseId) of the call:
    every other entry (other users, other courses, other endpoints) reads
    the same while the request is in flight, and the patch never creates or
    removes an entry. *)
Theorem optimistic_patch_frame (a : ProgressUpdate) (c : Cache) :
  (∀ key, key ≠ progressKey a → pending a c !! key = c !! key)
  ∧ dom (pending a c) = dom c.
Proof.
  destruct (onQueryStarted_cases a c)
    as [[-> _] | (e & progress & Hentry & _ & -> & _)]; [done|].
  split.
  - intros key Hkey. by apply lookup_insert_ne.
  - rewrite dom_insert_L.
    apply subseteq_union_1_L, singleton_subseteq_l, elem_of_dom. eauto.
Qed.

(** X18: whatever the cache holds (the progress entry, no entry, or an entry
    whose value is not an object), a rejected update leaves no trace: once
    [queryFulfilled] has rejected, the cache is again what it was before the
    call; and a fulfilled update leaves the cache as it was while pending. *)
Theorem rejected_update_leaves_no_trace (a : ProgressUpdate) (c : Cache) :
  settledCache a Rejected c = c
  ∧ settledCache a Fulfilled c = pending a c.
Proof.
  destruct (onQueryStarted_cases a c)
    as [[Hpending Hsettled] | (e & progress & _ & _ & _ & Hfulfilled & Hrejected)].
  - by rewrite !Hsettled, Hpending.
  - done.
Qed.

